(** * NavKar Jewellery API: order placement and the paid transition

    A shallow embedding of [src/main.py].  The handlers are functions in a
    small state-and-exception monad over a [world] that holds the two
    MongoDB collections the handlers touch, the wall clock, the driver's
    id generator and a log of the store operations performed.

    Python's [float] is IEEE 754 binary64; it is modelled by the
    executable specification [spec_float] of the standard library at
    precision 53 and maximal exponent 1024, so that [+], [*] and
    [round(x, 2)] behave bit for bit as they do in CPython. *)

From Stdlib Require Import ZArith QArith Qpower String Ascii.
From Stdlib Require Import Floats.SpecFloat.
From stdpp Require Import base decidable option list gmap strings.

Local Open Scope Z_scope.

(** ** Python floats *)

Module PyFloat.

Definition prec : Z := 53.
Definition emax : Z := 1024.

Definition float : Type := spec_float.

(** [0.0] *)
Definition zero : float := S754_zero false.

(** [x + y] and [x * y] on floats. *)
Definition add : float -> float -> float := SFadd prec emax.
Definition mul : float -> float -> float := SFmul prec emax.
Definition div : float -> float -> float := SFdiv prec emax.

(** [float(z)] for an [int]: the nearest binary64, ties to even.  (Python
    raises [OverflowError] for an [int] beyond the range of binary64; the
    integers converted here are quantities, which the [CartItem] schema
    keeps between 1 and 10, and BSON integers, which have 64 bits.) *)
Definition of_int (z : Z) : float := binary_normalize prec emax z 0 false.

(** The decimal literal [p/q] as Python reads it: the binary64 nearest
    to the quotient (used to write prices such as [19.99]). *)
Definition dec (p q : Z) : float := div (of_int p) (of_int q).

(** [a / b] rounded to the nearest integer, ties to the even one. *)
Definition div_half_even (a b : Z) : Z :=
  let q := a / b in
  match (2 * (a mod b)) ?= b with
  | Lt => q
  | Gt => q + 1
  | Eq => if Z.even q then q else q + 1
  end.

(** The integer number of hundredths nearest to [m * 2^e]. *)
Definition hundredths (m : positive) (e : Z) : Z :=
  match e with
  | Zneg k => div_half_even (100 * Zpos m) (2 ^ Zpos k)
  | _ => 100 * Zpos m * 2 ^ e
  end.

(** [round(x, 2)]: CPython prints the exact binary value of [x] with two
    decimals, correctly rounded (ties to even), and reads the decimal
    string back as the nearest binary64; infinities, NaN and zeros are
    returned as they are and a value that rounds to zero keeps its
    sign. *)
Definition round2 (x : float) : float :=
  match x with
  | S754_finite s m e =>
      match hundredths m e with
      | Zpos n => div (S754_finite s n 0) (S754_finite false 100 0)
      | _ => S754_zero s
      end
  | _ => x
  end.

(** [0.0 + a1 + ... + an], accumulated from the left as a [for] loop
    with [total += a] does. *)
Definition sum (l : list float) : float := foldl add zero l.








End PyFloat.

Abbreviation float := PyFloat.float.

(** ** BSON object ids

    [bson.ObjectId] is not part of this repository.  An object id is twelve
    bytes; [str] prints them as 24 lower-case hexadecimal digits, and the
    constructor accepts a 24-digit hexadecimal string in either case.  An
    id is represented here by its printed form. *)

Module Bson.

Definition is_digit (c : ascii) : bool :=
  let n := N_of_ascii c in ((48 <=? n) && (n <=? 57))%N.
Definition is_lower_af (c : ascii) : bool :=
  let n := N_of_ascii c in ((97 <=? n) && (n <=? 102))%N.
Definition is_upper_af (c : ascii) : bool :=
  let n := N_of_ascii c in ((65 <=? n) && (n <=? 70))%N.

Definition is_hex (c : ascii) : bool := is_digit c || is_lower_af c || is_upper_af c.
Definition is_lower_hex (c : ascii) : bool := is_digit c || is_lower_af c.

Definition lower_char (c : ascii) : ascii :=
  if is_upper_af c then ascii_of_N (N_of_ascii c + 32) else c.

Fixpoint all_chars (p : ascii -> bool) (s : string) : bool :=
  match s with
  | EmptyString => true
  | String c r => p c && all_chars p r
  end.

Fixpoint lower (s : string) : string :=
  match s with
  | EmptyString => EmptyString
  | String c r => String (lower_char c) (lower r)
  end.

(** The printed form of an object id. *)
Definition canonical (s : string) : bool :=
  (String.length s =? 24)%nat && all_chars is_lower_hex s.

Definition ObjectId : Type := { s : string | canonical s }.

(** [str(oid)] *)
Definition str (o : ObjectId) : string := proj1_sig o.

(** [ObjectId.is_valid(v)] for a [str] argument. *)
Definition is_valid (s : string) : bool :=
  (String.length s =? 24)%nat && all_chars is_hex s.

(** [ObjectId(v)] for a string that [is_valid] accepts. *)
Definition of_string (s : string) : option ObjectId :=
  match decide (canonical (lower s)) with
  | left H => Some (lower s ↾ H)
  | right _ => None
  end.

End Bson.

Abbreviation ObjectId := Bson.ObjectId.

(** ** Schemas and documents

    The pydantic models of [main.py] are records.  A MongoDB document is a
    record as well, a key that may be missing being an [option]; [d.get(k)]
    is then the field itself. *)

Record ProductIn := {
  name : string;
  description : option string;
  price : float;
  category : string;
  image_url : option string;
  in_stock : bool }.

Record CartItem := {
  product_id : string;
  quantity : Z }.

Record CustomerInfo := {
  c_name : string;
  email : string;
  phone : option string;
  address : string;
  city : string;
  zip_code : string;
  country : string }.

Record OrderIn := {
  items : list CartItem;
  customer : CustomerInfo;
  payment_method : string }.

(** A number as a document stores it: a BSON integer or a double.  The
    API writes prices as doubles only ([ProductIn.price] is a [float]). *)
Inductive number :=
  | NInt (z : Z)
  | NFloat (f : float).

(** [float(n)] *)
Definition float_ (n : number) : float :=
  match n with
  | NInt z => PyFloat.of_int z
  | NFloat f => f
  end.

(** A timestamp: an instant in UTC, counted in the clock's ticks. *)
Definition datetime : Type := Z.

(** A document of the [product] collection. *)
Record Product_doc := {
  p_id : ObjectId;
  p_name : option string;
  p_description : option string;
  p_price : option number;
  p_category : option string;
  p_image_url : option string;
  p_in_stock : option bool;
  p_created_at : option datetime;
  p_updated_at : option datetime }.

(** An element of [enriched_items]. *)
Record LineItem := {
  li_product_id : string;
  li_name : option string;
  li_price : float;
  li_quantity : Z;
  li_image_url : option string }.

(** A document of the [order] collection, as [create_order] builds it. *)
Record Order_doc := {
  o_id : ObjectId;
  o_items : list LineItem;
  o_total_amount : float;
  o_status : string;
  o_payment_method : string;
  o_customer : CustomerInfo;
  o_created_at : datetime;
  o_updated_at : datetime }.

(** The ISO 8601 text of an instant, [v.astimezone(timezone.utc).isoformat()]. *)
Inductive isotime := Iso (t : datetime).

Definition fromisoformat (s : isotime) : datetime := let 'Iso t := s in t.

(** What [to_str_id] makes of an order document and of a product document:
    [_id] is replaced by [id], its printed form, and every [datetime] by
    its ISO text. *)
Record Order_json := {
  oj_id : string;
  oj_items : list LineItem;
  oj_total_amount : float;
  oj_status : string;
  oj_payment_method : string;
  oj_customer : CustomerInfo;
  oj_created_at : isotime;
  oj_updated_at : isotime }.

Record Product_json := {
  pj_id : string;
  pj_name : option string;
  pj_description : option string;
  pj_price : option number;
  pj_category : option string;
  pj_image_url : option string;
  pj_in_stock : option bool;
  pj_created_at : option isotime;
  pj_updated_at : option isotime }.

Record OrderOut := {
  out_id : string;
  out_items : list LineItem;
  out_total_amount : float;
  out_status : string;
  out_payment_method : string;
  out_customer : CustomerInfo;
  out_created_at : datetime }.

(** ** The world of a request *)

(** One operation on a collection of the store. *)
Inductive db_op :=
  | Find (collection : string)
  | FindOne (collection : string)
  | InsertOne (collection : string)
  | UpdateOne (collection : string)
  | DeleteOne (collection : string).

(** The collections in their natural order, the operations performed on
    them so far (latest last), the readings the clock will give and how
    many were taken, the ids the driver will generate and how many were,
    and the configured admin token. *)
Record world := {
  db_product : list Product_doc;
  db_order : list Order_doc;
  db_log : list db_op;
  clock : nat -> datetime;
  clock_reads : nat;
  oid_gen : nat -> ObjectId;
  oid_made : nat;
  ADMIN_TOKEN : string }.

Definition set_product (f : list Product_doc -> list Product_doc) (w : world) : world :=
  {| db_product := f (db_product w); db_order := db_order w; db_log := db_log w;
     clock := clock w; clock_reads := clock_reads w;
     oid_gen := oid_gen w; oid_made := oid_made w; ADMIN_TOKEN := ADMIN_TOKEN w |}.

Definition set_order (f : list Order_doc -> list Order_doc) (w : world) : world :=
  {| db_product := db_product w; db_order := f (db_order w); db_log := db_log w;
     clock := clock w; clock_reads := clock_reads w;
     oid_gen := oid_gen w; oid_made := oid_made w; ADMIN_TOKEN := ADMIN_TOKEN w |}.

Definition add_log (op : db_op) (w : world) : world :=
  {| db_product := db_product w; db_order := db_order w; db_log := db_log w ++ [op];
     clock := clock w; clock_reads := clock_reads w;
     oid_gen := oid_gen w; oid_made := oid_made w; ADMIN_TOKEN := ADMIN_TOKEN w |}.

Definition tick (w : world) : world :=
  {| db_product := db_product w; db_order := db_order w; db_log := db_log w;
     clock := clock w; clock_reads := S (clock_reads w);
     oid_gen := oid_gen w; oid_made := oid_made w; ADMIN_TOKEN := ADMIN_TOKEN w |}.

Definition next_oid (w : world) : world :=
  {| db_product := db_product w; db_order := db_order w; db_log := db_log w;
     clock := clock w; clock_reads := clock_reads w;
     oid_gen := oid_gen w; oid_made := S (oid_made w); ADMIN_TOKEN := ADMIN_TOKEN w |}.

(** ** Exceptions and the handler monad *)

Inductive exception :=
  | HTTPException (status_code : Z) (detail : string)
  | ValueError (msg : string)
  | TypeError (msg : string)
  | InvalidId
  | DuplicateKeyError.

Inductive result (A : Type) :=
  | Return (a : A)
  | Raise (e : exception).
Arguments Return {A} a.
Arguments Raise {A} e.

(** A computation reads and changes the world and returns or raises; what
    it changed before raising stays changed. *)
Definition M (A : Type) : Type := world -> result A * world.

Definition ret {A} (a : A) : M A := fun w => (Return a, w).
Definition raise {A} (e : exception) : M A := fun w => (Raise e, w).
Definition bind {A B} (m : M A) (k : A -> M B) : M B :=
  fun w => match m w with
           | (Return a, w') => k a w'
           | (Raise e, w') => (Raise e, w')
           end.
Definition get_world : M world := fun w => (Return w, w).
Definition modify (f : world -> world) : M unit := fun w => (Return tt, f w).

Declare Scope py_scope.
Delimit Scope py_scope with py.
Notation "x <- m ;; k" := (bind m (fun x => k))
  (at level 100, m at next level, right associativity) : py_scope.
Notation "m ;; k" := (bind m (fun _ => k))
  (at level 100, right associativity) : py_scope.
Local Open Scope py_scope.

(** A list comprehension [[f(x) for x in l]] whose body may raise. *)
Fixpoint mapM {A B} (f : A -> M B) (l : list A) : M (list B) :=
  match l with
  | [] => ret []
  | x :: r => y <- f x ;; ys <- mapM f r ;; ret (y :: ys)
  end.

(** [datetime.now(timezone.utc)] *)
Definition utcnow : M datetime :=
  w <- get_world ;; modify tick ;; ret (clock w (clock_reads w)).

(** ** The document store

    Modelled from the spec: the store [db] that [main.py] imports from
    [database.py] is not among the sources.  The spec describes it as a
    generic document store with find, insert, update and delete by filter,
    which assigns each document a unique id; it is modelled as MongoDB
    collections behave: documents are kept in insertion order, a filter on
    [_id] selects by equality of object ids, [insert_one] gives the
    document the next id the driver generates and refuses an id that the
    collection already holds, [update_one] and [delete_one] act on the
    first match.  Every operation is recorded in [db_log]. *)

Definition oid_eqb (a b : ObjectId) : bool := String.eqb (Bson.str a) (Bson.str b).

(** [update_one]: the first document that matches is changed; the second
    component is [matched_count]. *)
Fixpoint update_first {D} (p : D -> bool) (f : D -> D) (l : list D) : list D * Z :=
  match l with
  | [] => ([], 0)
  | d :: r =>
      if p d then (f d :: r, 1)
      else let '(r', n) := update_first p f r in (d :: r', n)
  end.

(** [delete_one]: the first document that matches is removed; the second
    component is [deleted_count]. *)
Fixpoint delete_first {D} (p : D -> bool) (l : list D) : list D * Z :=
  match l with
  | [] => ([], 0)
  | d :: r =>
      if p d then (r, 1)
      else let '(r', n) := delete_first p r in (d :: r', n)
  end.

Module Db.

(** [db["product"].find({"_id": {"$in": ids}})] *)
Definition product_find_in (ids : list ObjectId) : M (list Product_doc) :=
  modify (add_log (Find "product")) ;;
  w <- get_world ;;
  ret (List.filter (fun d => existsb (oid_eqb (p_id d)) ids) (db_product w)).

(** [db["product"].find_one({"_id": oid})] *)
Definition product_find_one (oid : ObjectId) : M (option Product_doc) :=
  modify (add_log (FindOne "product")) ;;
  w <- get_world ;;
  ret (List.find (fun d => oid_eqb (p_id d) oid) (db_product w)).

(** [db["product"].insert_one(doc)], returning [inserted_id]. *)
Definition product_insert_one (doc : ObjectId -> Product_doc) : M ObjectId :=
  w <- get_world ;;
  let oid := oid_gen w (oid_made w) in
  modify next_oid ;;
  modify (add_log (InsertOne "product")) ;;
  if existsb (fun d => oid_eqb (p_id d) oid) (db_product w)
  then raise DuplicateKeyError
  else modify (set_product (fun c => c ++ [doc oid])) ;; ret oid.

(** [db["product"].update_one({"_id": oid}, {"$set": ...})], returning
    [matched_count]. *)
Definition product_update_one (oid : ObjectId) (set : Product_doc -> Product_doc) : M Z :=
  modify (add_log (UpdateOne "product")) ;;
  w <- get_world ;;
  let '(c, n) := update_first (fun d => oid_eqb (p_id d) oid) set (db_product w) in
  modify (set_product (fun _ => c)) ;; ret n.

(** [db["product"].delete_one({"_id": oid})], returning [deleted_count]. *)
Definition product_delete_one (oid : ObjectId) : M Z :=
  modify (add_log (DeleteOne "product")) ;;
  w <- get_world ;;
  let '(c, n) := delete_first (fun d => oid_eqb (p_id d) oid) (db_product w) in
  modify (set_product (fun _ => c)) ;; ret n.

(** [db["order"].insert_one(doc)], returning [inserted_id]. *)
Definition order_insert_one (doc : ObjectId -> Order_doc) : M ObjectId :=
  w <- get_world ;;
  let oid := oid_gen w (oid_made w) in
  modify next_oid ;;
  modify (add_log (InsertOne "order")) ;;
  if existsb (fun d => oid_eqb (o_id d) oid) (db_order w)
  then raise DuplicateKeyError
  else modify (set_order (fun c => c ++ [doc oid])) ;; ret oid.

(** [db["order"].find_one({"_id": oid})] *)
Definition order_find_one (oid : ObjectId) : M (option Order_doc) :=
  modify (add_log (FindOne "order")) ;;
  w <- get_world ;;
  ret (List.find (fun d => oid_eqb (o_id d) oid) (db_order w)).

(** [db["order"].update_one({"_id": oid}, {"$set": ...})], returning
    [matched_count]. *)
Definition order_update_one (oid : ObjectId) (set : Order_doc -> Order_doc) : M Z :=
  modify (add_log (UpdateOne "order")) ;;
  w <- get_world ;;
  let '(c, n) := update_first (fun d => oid_eqb (o_id d) oid) set (db_order w) in
  modify (set_order (fun _ => c)) ;; ret n.

End Db.

(** Modelled from the spec: [create_document] of [database.py] is not
    among the sources.  The spec has the store assign a product its id and
    its [created_at] and [updated_at] timestamps; here it stamps the
    document with one reading of the clock, inserts it and returns the
    printed id. *)
Definition create_document_product (data : ProductIn) : M string :=
  now <- utcnow ;;
  oid <- Db.product_insert_one (fun oid =>
    {| p_id := oid;
       p_name := Some (name data);
       p_description := description data;
       p_price := Some (NFloat (price data));
       p_category := Some (category data);
       p_image_url := image_url data;
       p_in_stock := Some (in_stock data);
       p_created_at := Some now;
       p_updated_at := Some now |}) ;;
  ret (Bson.str oid).

(** ** Helpers of [main.py] *)

(** [to_str_id] on an order document: [_id] is popped and printed under
    [id], the timestamps become ISO texts. *)
Definition to_str_id (doc : Order_doc) : Order_json :=
  {| oj_id := Bson.str (o_id doc);
     oj_items := o_items doc;
     oj_total_amount := o_total_amount doc;
     oj_status := o_status doc;
     oj_payment_method := o_payment_method doc;
     oj_customer := o_customer doc;
     oj_created_at := Iso (o_created_at doc);
     oj_updated_at := Iso (o_updated_at doc) |}.

(** [to_str_id] on a product document. *)
Definition to_str_id_product (doc : Product_doc) : Product_json :=
  {| pj_id := Bson.str (p_id doc);
     pj_name := p_name doc;
     pj_description := p_description doc;
     pj_price := p_price doc;
     pj_category := p_category doc;
     pj_image_url := p_image_url doc;
     pj_in_stock := p_in_stock doc;
     pj_created_at := Iso <$> p_created_at doc;
     pj_updated_at := Iso <$> p_updated_at doc |}.

(** [PyObjectId.validate(v)] for a [str] argument. *)
Definition validate (v : string) : M ObjectId :=
  if negb (Bson.is_valid v) then raise (ValueError "Invalid ObjectId")
  else match Bson.of_string v with
       | Some oid => ret oid
       | None => raise InvalidId
       end.

(** [require_admin] *)
Definition require_admin (x_admin_token : string) : M unit :=
  w <- get_world ;;
  if negb (String.eqb x_admin_token (ADMIN_TOKEN w))
  then raise (HTTPException 401 "Invalid or missing admin token")
  else ret tt.

(** ** Products *)

Definition create_product (payload : ProductIn) : M string :=
  create_document_product payload.

(** The [$set] of [update_product]: every field of the payload, and
    [updated_at]. *)
Definition set_product_fields (data : ProductIn) (now : datetime) (d : Product_doc) : Product_doc :=
  {| p_id := p_id d;
     p_name := Some (name data);
     p_description := description data;
     p_price := Some (NFloat (price data));
     p_category := Some (category data);
     p_image_url := image_url data;
     p_in_stock := Some (in_stock data);
     p_created_at := p_created_at d;
     p_updated_at := Some now |}.

Definition update_product (product_id : string) (payload : ProductIn) : M (option Product_json) :=
  oid <- validate product_id ;;
  now <- utcnow ;;
  matched_count <- Db.product_update_one oid (set_product_fields payload now) ;;
  if matched_count =? 0 then raise (HTTPException 404 "Product not found")
  else
    doc <- Db.product_find_one oid ;;
    ret (to_str_id_product <$> doc).

Definition delete_product (product_id : string) : M bool :=
  oid <- validate product_id ;;
  deleted_count <- Db.product_delete_one oid ;;
  if deleted_count =? 0 then raise (HTTPException 404 "Product not found")
  else ret true.

(** ** Orders *)

(** The dictionary [{str(d["_id"]): d for d in docs}]. *)
Definition by_str_id (docs : list Product_doc) : gmap string Product_doc :=
  foldl (fun m d => <[Bson.str (p_id d) := d]> m) ∅ docs.

(** [float(prod.get("price", 0))] *)
Definition snapshot_price (prod : Product_doc) : float :=
  float_ (default (NInt 0) (p_price prod)).

(** The element appended to [enriched_items] for a cart line. *)
Definition enrich (item : CartItem) (prod : Product_doc) : LineItem :=
  {| li_product_id := product_id item;
     li_name := p_name prod;
     li_price := snapshot_price prod;
     li_quantity := quantity item;
     li_image_url := p_image_url prod |}.

(** The [for item in order.items] loop of [create_order], started with the
    values [enriched_items] and [total] have so far. *)
Fixpoint price_lines (prods : gmap string Product_doc) (cart : list CartItem)
    (enriched_items : list LineItem) (total : float) : result (list LineItem * float) :=
  match cart with
  | [] => Return (enriched_items, total)
  | item :: rest =>
      match prods !! product_id item with
      | None => Raise (HTTPException 400 ("Invalid product " +:+ product_id item))
      | Some prod =>
          let price := snapshot_price prod in
          price_lines prods rest
            (enriched_items ++ [enrich item prod])
            (PyFloat.add total (PyFloat.mul price (PyFloat.of_int (quantity item))))
      end
  end.

Definition lift {A} (r : result A) : M A := fun w => (r, w).

Definition create_order (order : OrderIn) : M OrderOut :=
  match items order with
  | [] => raise (HTTPException 400 "Cart is empty")
  | _ =>
      product_ids <- mapM (fun i => validate (product_id i)) (items order) ;;
      docs <- Db.product_find_in product_ids ;;
      let prods := by_str_id docs in
      priced <- lift (price_lines prods (items order) [] PyFloat.zero) ;;
      let '(enriched_items, total) := priced in
      created_at <- utcnow ;;
      updated_at <- utcnow ;;
      inserted_id <- Db.order_insert_one (fun oid =>
        {| o_id := oid;
           o_items := enriched_items;
           o_total_amount := PyFloat.round2 total;
           o_status := "pending";
           o_payment_method := payment_method order;
           o_customer := customer order;
           o_created_at := created_at;
           o_updated_at := updated_at |}) ;;
      found <- Db.order_find_one inserted_id ;;
      match found with
      | None => raise (TypeError "'NoneType' object is not subscriptable")
      | Some doc =>
          let out := to_str_id doc in
          ret {| out_id := oj_id out;
                 out_items := oj_items out;
                 out_total_amount := oj_total_amount out;
                 out_status := oj_status out;
                 out_payment_method := oj_payment_method out;
                 out_customer := oj_customer out;
                 out_created_at := fromisoformat (oj_created_at out) |}
      end
  end.

Definition get_order (order_id : string) : M Order_json :=
  oid <- validate order_id ;;
  doc <- Db.order_find_one oid ;;
  match doc with
  | None => raise (HTTPException 404 "Order not found")
  | Some d => ret (to_str_id d)
  end.

(** The [$set] of [mark_order_paid]. *)
Definition set_paid (now : datetime) (d : Order_doc) : Order_doc :=
  {| o_id := o_id d;
     o_items := o_items d;
     o_total_amount := o_total_amount d;
     o_status := "paid";
     o_payment_method := o_payment_method d;
     o_customer := o_customer d;
     o_created_at := o_created_at d;
     o_updated_at := now |}.

(** The body [{"ok": True}]. *)
Record Ack := { ok : bool }.

Definition mark_order_paid (order_id : string) : M Ack :=
  oid <- validate order_id ;;
  now <- utcnow ;;
  matched_count <- Db.order_update_one oid (set_paid now) ;;
  if matched_count =? 0 then raise (HTTPException 404 "Order not found")
  else ret {| ok := true |}.

(** ** Requests

    The routes that write to the store, and [get_order]; the privileged
    ones carry the [x-admin-token] header, which [require_admin] checks
    before the handler runs.  The remaining routes only read the store. *)

Inductive request :=
  | POST_products (x_admin_token : string) (payload : ProductIn)
  | PUT_product (x_admin_token : string) (product_id : string) (payload : ProductIn)
  | DELETE_product (x_admin_token : string) (product_id : string)
  | POST_orders (order : OrderIn)
  | GET_order (order_id : string)
  | POST_mark_paid (x_admin_token : string) (order_id : string).

Inductive response :=
  | Created (id : string)
  | ProductBody (doc : option Product_json)
  | Deleted (deleted : bool)
  | OrderOutBody (out : OrderOut)
  | OrderBody (doc : Order_json)
  | AckBody (a : Ack).

Definition handle (r : request) : M response :=
  match r with
  | POST_products tok payload =>
      require_admin tok ;; x <- create_product payload ;; ret (Created x)
  | PUT_product tok pid payload =>
      require_admin tok ;; x <- update_product pid payload ;; ret (ProductBody x)
  | DELETE_product tok pid =>
      require_admin tok ;; x <- delete_product pid ;; ret (Deleted x)
  | POST_orders order =>
      x <- create_order order ;; ret (OrderOutBody x)
  | GET_order oid =>
      x <- get_order oid ;; ret (OrderBody x)
  | POST_mark_paid tok oid =>
      require_admin tok ;; x <- mark_order_paid oid ;; ret (AckBody x)
  end.

(** The world after a sequence of requests, served one after the other. *)
Definition serve (rs : list request) (w : world) : world :=
  foldl (fun w r => snd (handle r w)) w rs.

(** ** Vocabulary of the statements *)

(** The product a cart line's [product_id] names: the document of the
    catalog whose id prints as that string. *)
Definition find_product (w : world) (pid : string) : option Product_doc :=
  List.find (fun d => String.eqb (Bson.str (p_id d)) pid) (db_product w).

(** No two products of the catalog share an id. *)
Definition unique_product_ids (w : world) : Prop :=
  NoDup (map (fun d => Bson.str (p_id d)) (db_product w)).

(** The id the driver generates next is not yet taken by an order. *)
Definition fresh_order_id (w : world) : Prop :=
  existsb (fun d => oid_eqb (o_id d) (oid_gen w (oid_made w))) (db_order w) = false.

(** [price * item.quantity] for a cart line and the product it resolved to. *)
Definition amount (item : CartItem) (prod : Product_doc) : float :=
  PyFloat.mul (snapshot_price prod) (PyFloat.of_int (quantity item)).

(** What a cart line adds to the total: the price of the product it names,
    times its quantity. *)
Definition line_amount (w : world) (item : CartItem) : float :=
  match find_product w (product_id item) with
  | Some prod => amount item prod
  | None => PyFloat.zero
  end.

(** The documents [create_order]'s batch lookup returns for a list of ids. *)
Definition resolved (w : world) (ids : list ObjectId) : list Product_doc :=
  List.filter (fun d => existsb (oid_eqb (p_id d)) ids) (db_product w).

(** The order document [create_order] inserts in world [w] once the loop
    has produced [enriched_items] and [total]. *)
Definition new_order (order : OrderIn) (enriched_items : list LineItem) (total : float)
    (w : world) : Order_doc :=
  {| o_id := oid_gen w (oid_made w);
     o_items := enriched_items;
     o_total_amount := PyFloat.round2 total;
     o_status := "pending";
     o_payment_method := payment_method order;
     o_customer := customer order;
     o_created_at := clock w (clock_reads w);
     o_updated_at := clock w (S (clock_reads w)) |}.

(** The [OrderOut] that [create_order] builds from the stored document. *)
Definition order_out (doc : Order_doc) : OrderOut :=
  {| out_id := Bson.str (o_id doc);
     out_items := o_items doc;
     out_total_amount := o_total_amount doc;
     out_status := o_status doc;
     out_payment_method := o_payment_method doc;
     out_customer := o_customer doc;
     out_created_at := o_created_at doc |}.

(** The world [create_order] leaves after it stored [doc]: one batch read
    of the products, two readings of the clock, one generated id, the
    insert and the read of the stored document. *)
Definition after_order (doc : Order_doc) (w : world) : world :=
  add_log (FindOne "order")
    (set_order (fun c => c ++ [doc])
       (add_log (InsertOne "order")
          (next_oid (tick (tick (add_log (Find "product") w)))))).

(** The order stored under a printed id. *)
Definition stored_order (w : world) (id : string) : option Order_doc :=
  List.find (fun d => String.eqb (Bson.str (o_id d)) id) (db_order w).

(** The quantities a [CartItem] may carry: [Field(..., ge=1, le=10)]. *)
Definition valid_quantity (item : CartItem) : Prop := 1 <= quantity item <= 10.

(** No two orders share an id. *)
Definition unique_order_ids (w : world) : Prop :=
  NoDup (map (fun d => Bson.str (o_id d)) (db_order w)).

(** The token a request carries for [require_admin], if its route is
    privileged. *)
Definition admin_token_of (r : request) : option string :=
  match r with
  | POST_products tok _ => Some tok
  | PUT_product tok _ _ => Some tok
  | DELETE_product tok _ => Some tok
  | POST_orders _ => None
  | GET_order _ => None
  | POST_mark_paid tok _ => Some tok
  end.

(** A request that carries no valid admin token in world [w]: its route
    is public, or its token is not the configured one. *)
Definition without_admin_token (w : world) (r : request) : Prop :=
  forall tok, admin_token_of r = Some tok -> tok <> ADMIN_TOKEN w.

(** From [w] to [w'] the configuration and the catalog are the same and
    the orders of [w] are the first orders of [w'], unchanged. *)
Definition only_orders_added (w w' : world) : Prop :=
  ADMIN_TOKEN w' = ADMIN_TOKEN w
  /\ db_product w' = db_product w
  /\ exists added, db_order w' = db_order w ++ added.

(** Python's [x >= 0] on floats. *)
Definition ge0 (x : float) : bool := SFleb PyFloat.zero x.

(** The world after the update of [update_product] left the collection
    [c]: the clock was read once and the update was logged. *)
Definition after_update (c : list Product_doc) (w : world) : world :=
  set_product (fun _ => c) (add_log (UpdateOne "product") (tick w)).

(** The world after [delete_product] left the collection [c]. *)
Definition after_delete (c : list Product_doc) (w : world) : world :=
  set_product (fun _ => c) (add_log (DeleteOne "product") w).

(** No two documents of a collection share an id. *)
Definition unique_ids (w : world) : Prop :=
  unique_product_ids w /\ unique_order_ids w.

(** A float that is zero, positive or [+inf]: not negative and not NaN. *)
Definition nonneg_float (x : float) : Prop :=
  match x with
  | S754_zero _ | S754_finite false _ _ | S754_infinity false => True
  | _ => False
  end.

(** ** A sample shop

    A catalog, a clock that advances by one tick at every reading, and a
    few carts, used to run the handlers on concrete requests. *)

Module Sample.

Definition oid (s : string) (H : Bson.canonical s) : ObjectId := s ↾ H.

Definition ring_id : ObjectId := oid "64b7f0c2a1d3e4f5a6b7c801" I.
Definition chain_id : ObjectId := oid "64b7f0c2a1d3e4f5a6b7c802" I.
Definition charm_id : ObjectId := oid "64b7f0c2a1d3e4f5a6b7c803" I.
Definition stud_id : ObjectId := oid "64b7f0c2a1d3e4f5a6b7c804" I.
Definition bead_id : ObjectId := oid "64b7f0c2a1d3e4f5a6b7c805" I.
Definition clasp_id : ObjectId := oid "64b7f0c2a1d3e4f5a6b7c806" I.
Definition bangle_id : ObjectId := oid "64b7f0c2a1d3e4f5a6b7c807" I.
Definition pin_id : ObjectId := oid "64b7f0c2a1d3e4f5a6b7c808" I.
Definition hoop_id : ObjectId := oid "64b7f0c2a1d3e4f5a6b7c809" I.

Definition product (id : ObjectId) (n : string) (p : option number) : Product_doc :=
  {| p_id := id;
     p_name := Some n;
     p_description := None;
     p_price := p;
     p_category := Some "Rings";
     p_image_url := Some ("https://img.example/" +:+ n);
     p_in_stock := Some true;
     p_created_at := Some 100;
     p_updated_at := Some 100 |}.

(** Prices 19.99 and 5.005 are those of the spec's example; the charm has
    no price field; 1.59, 1.683 and 0.219 are three more prices; 12.5,
    0.75 and 3.25 are prices that binary64 represents exactly. *)
Definition catalog : list Product_doc :=
  [ product ring_id "ring" (Some (NFloat (PyFloat.dec 1999 100)));
    product chain_id "chain" (Some (NFloat (PyFloat.dec 5005 1000)));
    product charm_id "charm" None;
    product stud_id "stud" (Some (NFloat (PyFloat.dec 159 100)));
    product bead_id "bead" (Some (NFloat (PyFloat.dec 1683 1000)));
    product clasp_id "clasp" (Some (NFloat (PyFloat.dec 219 1000)));
    product bangle_id "bangle" (Some (NFloat (PyFloat.dec 125 10)));
    product pin_id "pin" (Some (NFloat (PyFloat.dec 75 100)));
    product hoop_id "hoop" (Some (NFloat (PyFloat.dec 325 100))) ].

(** The ids the driver hands out: 64b7f0c2a1d3e4f5a6b7d000 and so on, the
    last three digits counting in hexadecimal. *)
Definition hex_digit (n : nat) : string :=
  String.substring n 1 "0123456789abcdef".

Definition generated (n : nat) : ObjectId :=
  let s := "64b7f0c2a1d3e4f5a6b7d" +:+ hex_digit (n / 256 mod 16)
             +:+ hex_digit (n / 16 mod 16) +:+ hex_digit (n mod 16) in
  match decide (Bson.canonical s) with
  | left H => s ↾ H
  | right _ => ring_id
  end.

Definition shop : world :=
  {| db_product := catalog;
     db_order := [];
     db_log := [];
     clock := fun n => 1700000000 + Z.of_nat n;
     clock_reads := 0;
     oid_gen := generated;
     oid_made := 0;
     ADMIN_TOKEN := "admin123" |}.

Definition buyer : CustomerInfo :=
  {| c_name := "Asha";
     email := "asha@example.com";
     phone := None;
     address := "12 Hill Road";
     city := "Pune";
     zip_code := "411001";
     country := "IN" |}.

Definition line (id : ObjectId) (q : Z) : CartItem :=
  {| product_id := Bson.str id; quantity := q |}.

Definition cart (lines : list CartItem) : OrderIn :=
  {| items := lines; customer := buyer; payment_method := "upi" |}.


(** The cart of the spec's example: two rings and one chain. *)
Definition example_cart : OrderIn := cart [line ring_id 2; line chain_id 1].

(** The same three lines in two submission orders. *)
Definition stud_first : OrderIn := cart [line stud_id 1; line bead_id 2; line clasp_id 1].

Definition bangle_last : OrderIn := cart [line hoop_id 1; line pin_id 3; line bangle_id 2].

(** A new price for the ring. *)
Definition repriced_ring : ProductIn :=
  {| name := "ring";
     description := None;
     price := PyFloat.dec 2499 100;
     category := "Rings";
     image_url := None;
     in_stock := true |}.

(** The shop after the example cart was ordered, and after that order
    was marked paid; the order got the first generated id. *)
Definition order_id : string := "64b7f0c2a1d3e4f5a6b7d000".

Definition open_shop : world := snd (create_order example_cart shop).

Definition paid_shop : world := snd (mark_order_paid order_id open_shop).

End Sample.

(** The world after the update of [mark_order_paid] on the collection
    [c]: the clock was read once and the update was logged. *)
Definition after_mark (c : list Order_doc) (w : world) : world :=
  set_order (fun _ => c) (add_log (UpdateOne "order") (tick w)).

(** What an order keeps for good: its id, its line items and its total. *)
Definition same_snapshot (d d' : Order_doc) : Prop :=
  o_id d' = o_id d /\ o_items d' = o_items d /\ o_total_amount d' = o_total_amount d.

(** The orders of [w] are all still in [w'], at their places, each with
    the same snapshot; [w'] may hold more orders after them. *)
Definition orders_kept (w w' : world) : Prop :=
  exists kept added,
    db_order w' = kept ++ added /\ Forall2 same_snapshot (db_order w) kept.

(** ** Object ids: printing and parsing *)

Module BsonFacts.
Import Bson.

Lemma lower_char_hex c : is_hex c = true -> is_lower_hex (lower_char c) = true.
Proof.
  destruct c as [[] [] [] [] [] [] [] []]; vm_compute; congruence.
Qed.

Lemma lower_char_id c : is_lower_hex c = true -> lower_char c = c.
Proof.
  destruct c as [[] [] [] [] [] [] [] []]; vm_compute; congruence.
Qed.

Lemma lower_hex_is_hex c : is_lower_hex c = true -> is_hex c = true.
Proof.
  unfold is_hex, is_lower_hex. intros ->. reflexivity.
Qed.

Lemma length_lower s : String.length (lower s) = String.length s.
Proof. induction s as [|c s IH]; simpl; congruence. Qed.

Lemma all_hex_lower s : all_chars is_hex s = true -> all_chars is_lower_hex (lower s) = true.
Proof.
  induction s as [|c s IH]; simpl; [reflexivity|].
  rewrite andb_true_iff. intros [Hc Hs].
  rewrite (lower_char_hex _ Hc). simpl. auto.
Qed.

Lemma lower_canonical s : all_chars is_lower_hex s = true -> lower s = s.
Proof.
  induction s as [|c s IH]; simpl; [reflexivity|].
  rewrite andb_true_iff. intros [Hc Hs].
  rewrite (lower_char_id _ Hc), IH; auto.
Qed.

Lemma all_lower_hex_is_hex s : all_chars is_lower_hex s = true -> all_chars is_hex s = true.
Proof.
  induction s as [|c s IH]; simpl; [reflexivity|].
  rewrite !andb_true_iff. intros [Hc Hs]. split; [apply lower_hex_is_hex|]; auto.
Qed.

Lemma valid_lower_canonical s : is_valid s = true -> canonical (lower s) = true.
Proof.
  unfold is_valid, canonical. rewrite !andb_true_iff, length_lower.
  intros [Hl Hc]. split; [assumption | apply all_hex_lower; assumption].
Qed.

Lemma canonical_valid s : canonical s = true -> is_valid s = true.
Proof.
  unfold is_valid, canonical. rewrite !andb_true_iff.
  intros [Hl Hc]. split; [assumption | apply all_lower_hex_is_hex; assumption].
Qed.

Lemma canonical_lower s : canonical s = true -> lower s = s.
Proof.
  unfold canonical. rewrite andb_true_iff. intros [_ Hc]. apply lower_canonical, Hc.
Qed.

(** Two object ids that print alike are the same id. *)
Lemma str_inj (a b : ObjectId) : str a = str b -> a = b.
Proof. apply (proj1_sig_inj (fun s => Is_true (canonical s))). Qed.

(** A valid string is accepted and read as its lower-case form. *)
Lemma of_string_valid s :
  is_valid s = true -> exists o, of_string s = Some o /\ str o = lower s.
Proof.
  intros Hv. unfold of_string.
  destruct (decide (canonical (lower s))) as [H|H].
  - eexists; split; reflexivity.
  - exfalso. apply H. rewrite (valid_lower_canonical _ Hv). exact I.
Qed.

(** The printed form of an id is valid and reads back as that id. *)
Lemma str_valid (o : ObjectId) : is_valid (str o) = true.
Proof.
  destruct o as [s Hs]. simpl. apply canonical_valid, Is_true_true, Hs.
Qed.

Lemma of_string_str (o : ObjectId) : of_string (str o) = Some o.
Proof.
  destruct (of_string_valid (str o) (str_valid o)) as (o' & Ho & Hs).
  rewrite Ho. f_equal. apply str_inj. rewrite Hs.
  destruct o as [s Hs']. simpl. apply canonical_lower, Is_true_true, Hs'.
Qed.

End BsonFacts.

Lemma oid_eqb_eq (a b : ObjectId) : oid_eqb a b = true <-> a = b.
Proof.
  unfold oid_eqb. rewrite String.eqb_eq. split.
  - apply BsonFacts.str_inj.
  - intros ->. reflexivity.
Qed.

Lemma oid_eqb_refl (a : ObjectId) : oid_eqb a a = true.
Proof. apply oid_eqb_eq. reflexivity. Qed.

(** ** Running computations *)

Lemma bind_return {A B} (m : M A) (k : A -> M B) w a w' :
  m w = (Return a, w') -> bind m k w = k a w'.
Proof. unfold bind. intros ->. reflexivity. Qed.

Lemma bind_raise {A B} (m : M A) (k : A -> M B) w e w' :
  m w = (Raise e, w') -> bind m k w = (Raise e, w').
Proof. unfold bind. intros ->. reflexivity. Qed.

Lemma validate_str (o : ObjectId) w : validate (Bson.str o) w = (Return o, w).
Proof.
  unfold validate. rewrite BsonFacts.str_valid, BsonFacts.of_string_str. reflexivity.
Qed.

Lemma validate_invalid v w :
  Bson.is_valid v = false -> validate v w = (Raise (ValueError "Invalid ObjectId"), w).
Proof. unfold validate. intros ->. reflexivity. Qed.

Lemma validate_valid v w :
  Bson.is_valid v = true ->
  exists o, validate v w = (Return o, w) /\ Bson.str o = Bson.lower v.
Proof.
  intros Hv. unfold validate. rewrite Hv. simpl.
  destruct (BsonFacts.of_string_valid v Hv) as (o & -> & Ho).
  exists o. split; [reflexivity | exact Ho].
Qed.

(** The list comprehension over the cart's ids either validates every id,
    or raises [ValueError] at the first malformed one; it leaves the
    world as it is. *)
Lemma validate_all_str (cart : list CartItem) (ids : list ObjectId) w :
  Forall2 (fun i o => product_id i = Bson.str o) cart ids ->
  mapM (fun i => validate (product_id i)) cart w = (Return ids, w).
Proof.
  induction 1 as [|i o cart ids Hi _ IH]; simpl; [reflexivity|].
  rewrite Hi.
  rewrite (bind_return _ _ _ _ _ (validate_str o w)).
  rewrite (bind_return _ _ _ _ _ IH). reflexivity.
Qed.

Lemma validate_all_cases (cart : list CartItem) w :
  (exists ids, mapM (fun i => validate (product_id i)) cart w = (Return ids, w)
               /\ Forall2 (fun i o => Bson.str o = Bson.lower (product_id i)) cart ids
               /\ Forall (fun i => Bson.is_valid (product_id i) = true) cart)
  \/ (mapM (fun i => validate (product_id i)) cart w = (Raise (ValueError "Invalid ObjectId"), w)
      /\ Exists (fun i => Bson.is_valid (product_id i) = false) cart).
Proof.
  induction cart as [|i cart IH]; simpl.
  - left. exists []. split; [reflexivity | split; constructor].
  - destruct (Bson.is_valid (product_id i)) eqn:Hv.
    + destruct (validate_valid _ w Hv) as (o & Ho & Hs).
      rewrite (bind_return _ _ _ _ _ Ho).
      destruct IH as [(ids & Hids & Hall & Hval) | [Hr Hex]].
      * left. exists (o :: ids). rewrite (bind_return _ _ _ _ _ Hids).
        split; [reflexivity | split; constructor; assumption].
      * right. rewrite (bind_raise _ _ _ _ _ Hr).
        split; [reflexivity | apply Exists_cons_tl, Hex].
    + right. rewrite (bind_raise _ _ _ _ _ (validate_invalid _ w Hv)).
      split; [reflexivity | apply Exists_cons_hd, Hv].
Qed.

(** ** The empty cart *)

(** C3. On the empty cart [create_order] raises the 400 "Cart is empty"
    error and hands back the world exactly as it received it: no
    collection is changed and the log of store operations has gained no
    entry, neither a read nor a write. *)
Theorem create_order_empty_cart (c : CustomerInfo) (pm : string) (w : world) :
  create_order {| items := []; customer := c; payment_method := pm |} w
    = (Raise (HTTPException 400 "Cart is empty"), w)
  /\ db_log (snd (create_order {| items := []; customer := c; payment_method := pm |} w))
     = db_log w.
Proof. split; reflexivity. Qed.

(** ** The dictionary of resolved products *)

Lemma find_app {A} (p : A -> bool) (l k : list A) :
  List.find p (l ++ k) = match List.find p l with Some x => Some x | None => List.find p k end.
Proof.
  induction l as [|a l IH]; simpl; [reflexivity|].
  destruct (p a); [reflexivity | exact IH].
Qed.

Lemma find_none_iff {A} (p : A -> bool) (l : list A) :
  List.find p l = None <-> forall x, In x l -> p x = false.
Proof.
  induction l as [|a l IH]; simpl.
  - split; [intros _ x [] | reflexivity].
  - destruct (p a) eqn:Ha.
    + split; [discriminate|]. intros H. rewrite (H a) in Ha; [discriminate | left; reflexivity].
    + rewrite IH. split.
      * intros H x [<-|Hx]; [exact Ha | apply H, Hx].
      * intros H x Hx. apply H. right. exact Hx.
Qed.

Lemma find_some_in {A} (p : A -> bool) (l : list A) x :
  List.find p l = Some x -> In x l /\ p x = true.
Proof.
  induction l as [|a l IH]; simpl; [discriminate|].
  destruct (p a) eqn:Ha.
  - intros [= <-]. split; [left; reflexivity | exact Ha].
  - intros H. destruct (IH H). split; [right|]; assumption.
Qed.

Lemma find_filter {A} (p q : A -> bool) (l : list A) :
  (forall x, In x l -> p x = true -> q x = true) ->
  List.find p (List.filter q l) = List.find p l.
Proof.
  induction l as [|a l IH]; simpl; intros H; [reflexivity|].
  destruct (q a) eqn:Hq; simpl.
  - destruct (p a); [reflexivity|]. apply IH. intros x Hx. apply H. right. exact Hx.
  - destruct (p a) eqn:Hp.
    + rewrite (H a) in Hq; [discriminate | left; reflexivity | exact Hp].
    + apply IH. intros x Hx. apply H. right. exact Hx.
Qed.

Lemma NoDup_map_filter {A B} (f : A -> B) (q : A -> bool) (l : list A) :
  NoDup (map f l) -> NoDup (map f (List.filter q l)).
Proof.
  induction l as [|a l IH]; simpl; intros H; [constructor|].
  apply NoDup_cons in H as [Ha Hl].
  destruct (q a); simpl; [|auto].
  apply NoDup_cons. split; [|auto].
  intros Hin. apply Ha.
  apply list_elem_of_In in Hin. apply list_elem_of_In.
  apply in_map_iff in Hin as (x & Hx & Hin). apply in_map_iff.
  exists x. split; [exact Hx|]. apply filter_In in Hin. tauto.
Qed.

Lemma by_str_id_snoc docs d :
  by_str_id (docs ++ [d]) = <[Bson.str (p_id d) := d]> (by_str_id docs).
Proof. unfold by_str_id. rewrite foldl_app. reflexivity. Qed.

(** When the documents have distinct ids, the dictionary maps a string to
    the document whose id prints as it. *)
Lemma by_str_id_lookup docs k :
  NoDup (map (fun d => Bson.str (p_id d)) docs) ->
  by_str_id docs !! k = List.find (fun d => String.eqb (Bson.str (p_id d)) k) docs.
Proof.
  induction docs as [|d docs IH] using rev_ind; intros Hnd.
  - reflexivity.
  - rewrite by_str_id_snoc, find_app. rewrite map_app in Hnd. simpl in Hnd.
    apply NoDup_app in Hnd as (Hdocs & Hd & _).
    destruct (decide (Bson.str (p_id d) = k)) as [<-|Hne].
    + rewrite lookup_insert_eq.
      assert (Hnone : List.find (fun d0 => String.eqb (Bson.str (p_id d0)) (Bson.str (p_id d))) docs = None).
      { apply find_none_iff. intros x Hx. apply String.eqb_neq. intros Heq.
        apply (Hd (Bson.str (p_id d))).
        - apply list_elem_of_In, in_map_iff. exists x. split; [exact Heq | exact Hx].
        - apply list_elem_of_In. left. reflexivity. }
      rewrite Hnone. simpl. rewrite String.eqb_refl. reflexivity.
    + rewrite lookup_insert_ne by exact Hne. rewrite IH by exact Hdocs.
      destruct (List.find _ docs); [reflexivity|]. simpl.
      apply String.eqb_neq in Hne. rewrite Hne. reflexivity.
Qed.

(** The dictionary built from the batch lookup resolves every id of the
    batch as the catalog does. *)
Lemma resolved_lookup (w : world) (ids : list ObjectId) (k : string) :
  unique_product_ids w ->
  (forall d, In d (db_product w) -> Bson.str (p_id d) = k -> In (p_id d) ids) ->
  by_str_id (List.filter (fun d => existsb (oid_eqb (p_id d)) ids) (db_product w)) !! k
  = find_product w k.
Proof.
  intros Hnd Hids. unfold find_product.
  rewrite by_str_id_lookup.
  - apply find_filter. intros d Hd Hk. apply String.eqb_eq in Hk.
    apply existsb_exists. exists (p_id d). split; [auto | apply oid_eqb_refl].
  - apply (NoDup_map_filter (fun d => Bson.str (p_id d))). exact Hnd.
Qed.

(** ** The pricing loop *)

(** The loop either resolves every line, appending one line item per cart
    line in order and adding each line's amount to the total, or stops at
    the first line whose id the dictionary lacks. *)
Lemma price_lines_cases prods cart enriched total :
  (exists ds,
      Forall2 (fun i d => prods !! product_id i = Some d) cart ds
      /\ price_lines prods cart enriched total
         = Return (enriched ++ zip_with enrich cart ds,
                   foldl PyFloat.add total (zip_with amount cart ds)))
  \/ (exists pre i post,
      cart = pre ++ i :: post
      /\ Forall (fun j => is_Some (prods !! product_id j)) pre
      /\ prods !! product_id i = None
      /\ price_lines prods cart enriched total
         = Raise (HTTPException 400 ("Invalid product " +:+ product_id i))).
Proof.
  revert enriched total.
  induction cart as [|i cart IH]; intros enriched total; simpl.
  - left. exists []. split; [constructor|]. simpl. rewrite app_nil_r. reflexivity.
  - destruct (prods !! product_id i) as [d|] eqn:Hd.
    + destruct (IH (enriched ++ [enrich i d])
                   (PyFloat.add total
                      (PyFloat.mul (snapshot_price d) (PyFloat.of_int (quantity i)))))
        as [(ds & Hds & Hrun) | (pre & j & post & -> & Hpre & Hj & Hrun)].
      * left. exists (d :: ds). split; [constructor; assumption|].
        rewrite Hrun. simpl. rewrite <- app_assoc. reflexivity.
      * right. exists (i :: pre), j, post.
        split; [reflexivity|]. split; [constructor; [rewrite Hd; eauto | exact Hpre]|].
        split; [exact Hj | exact Hrun].
    + right. exists [], i, cart. repeat split; [constructor | exact Hd].
Qed.

Lemma price_lines_return prods cart ds enriched total :
  Forall2 (fun i d => prods !! product_id i = Some d) cart ds ->
  price_lines prods cart enriched total
  = Return (enriched ++ zip_with enrich cart ds,
            foldl PyFloat.add total (zip_with amount cart ds)).
Proof.
  intros Hds.
  destruct (price_lines_cases prods cart enriched total)
    as [(ds' & Hds' & Hrun) | (pre & i & post & -> & _ & Hi & _)].
  - assert (ds' = ds) as ->; [|exact Hrun].
    clear Hrun. revert ds' Hds'.
    induction Hds as [|i d cart ds Hi _ IH]; intros ds' Hds'; inversion Hds'; subst.
    + reflexivity.
    + f_equal; [congruence | auto].
  - exfalso. apply Forall2_app_inv_l in Hds as (ds1 & ds2 & _ & Hds2 & _).
    inversion Hds2; subst. congruence.
Qed.

(** The amounts of the lines, when every line names a product. *)
Lemma amounts_line_amount w cart ds :
  Forall2 (fun i d => find_product w (product_id i) = Some d) cart ds ->
  zip_with amount cart ds = map (line_amount w) cart.
Proof.
  induction 1 as [|i d cart ds Hi _ IH]; simpl; [reflexivity|].
  unfold line_amount at 1. rewrite Hi, IH. reflexivity.
Qed.

(** ** Running [create_order] *)

Lemma create_order_malformed order w e :
  mapM (fun i => validate (product_id i)) (items order) w = (Raise e, w) ->
  items order <> [] ->
  create_order order w = (Raise e, w).
Proof.
  unfold create_order.
  destruct (items order) as [|i cart] eqn:Hitems; [congruence|].
  intros Hv _. rewrite (bind_raise _ _ _ _ _ Hv). reflexivity.
Qed.

Lemma create_order_invalid order w ids e :
  mapM (fun i => validate (product_id i)) (items order) w = (Return ids, w) ->
  items order <> [] ->
  price_lines (by_str_id (resolved w ids)) (items order) [] PyFloat.zero = Raise e ->
  create_order order w = (Raise e, add_log (Find "product") w).
Proof.
  unfold create_order.
  destruct (items order) as [|i cart] eqn:Hitems; [congruence|].
  intros Hv _ Hp.
  rewrite (bind_return _ _ _ _ _ Hv).
  unfold Db.product_find_in, bind, modify, get_world, ret, lift.
  cbn [db_product add_log]. fold (resolved w ids). rewrite Hp. reflexivity.
Qed.

Lemma find_inserted (w : world) (doc : Order_doc) :
  existsb (fun d => oid_eqb (o_id d) (o_id doc)) (db_order w) = false ->
  List.find (fun d => oid_eqb (o_id d) (o_id doc)) (db_order w ++ [doc]) = Some doc.
Proof.
  intros Hfresh. rewrite find_app.
  assert (Hnone : List.find (fun d => oid_eqb (o_id d) (o_id doc)) (db_order w) = None).
  { apply find_none_iff. intros x Hx.
    destruct (oid_eqb (o_id x) (o_id doc)) eqn:E; [|reflexivity].
    assert (existsb (fun d => oid_eqb (o_id d) (o_id doc)) (db_order w) = true)
      by (apply existsb_exists; eauto).
    congruence. }
  rewrite Hnone. simpl. rewrite oid_eqb_refl. reflexivity.
Qed.

Lemma create_order_priced order w ids enriched total :
  mapM (fun i => validate (product_id i)) (items order) w = (Return ids, w) ->
  items order <> [] ->
  price_lines (by_str_id (resolved w ids)) (items order) [] PyFloat.zero
    = Return (enriched, total) ->
  fresh_order_id w ->
  create_order order w
  = (Return (order_out (new_order order enriched total w)),
     after_order (new_order order enriched total w) w).
Proof.
  unfold create_order.
  destruct (items order) as [|i cart] eqn:Hitems; [congruence|].
  intros Hv _ Hp Hfresh.
  rewrite (bind_return _ _ _ _ _ Hv).
  unfold Db.product_find_in, bind at 1 2 3, modify at 1, get_world at 1, ret at 1, lift.
  cbn [db_product add_log]. fold (resolved w ids). rewrite Hp.
  pose proof (find_inserted w (new_order order enriched total w) Hfresh) as Hfind.
  unfold fresh_order_id in Hfresh.
  unfold Db.order_insert_one, Db.order_find_one, utcnow, bind, modify, get_world, ret.
  cbn [db_order add_log tick next_oid clock clock_reads oid_gen oid_made set_order fst snd].
  rewrite Hfresh.
  fold (new_order order enriched total w).
  cbn [db_order set_order add_log next_oid tick].
  cbn [o_id new_order] in Hfind. rewrite Hfind. reflexivity.
Qed.

Lemma create_order_duplicate order w ids enriched total :
  mapM (fun i => validate (product_id i)) (items order) w = (Return ids, w) ->
  items order <> [] ->
  price_lines (by_str_id (resolved w ids)) (items order) [] PyFloat.zero
    = Return (enriched, total) ->
  ~ fresh_order_id w ->
  create_order order w
  = (Raise DuplicateKeyError,
     add_log (InsertOne "order") (next_oid (tick (tick (add_log (Find "product") w))))).
Proof.
  unfold create_order.
  destruct (items order) as [|i cart] eqn:Hitems; [congruence|].
  intros Hv _ Hp Hfresh.
  rewrite (bind_return _ _ _ _ _ Hv).
  unfold Db.product_find_in, bind at 1 2 3, modify at 1, get_world at 1, ret at 1, lift.
  cbn [db_product add_log]. fold (resolved w ids). rewrite Hp.
  unfold fresh_order_id in Hfresh. apply not_false_is_true in Hfresh.
  unfold Db.order_insert_one, Db.order_find_one, utcnow, bind, modify, get_world, ret.
  cbn [db_order add_log tick next_oid clock clock_reads oid_gen oid_made set_order fst snd].
  rewrite Hfresh. reflexivity.
Qed.

(** Once the ids of a cart have been validated, the dictionary of the
    batch lookup resolves each of them as the catalog does. *)
Lemma resolved_cart (w : world) (cart : list CartItem) (ids : list ObjectId) :
  unique_product_ids w ->
  Forall2 (fun i o => Bson.str o = Bson.lower (product_id i)) cart ids ->
  Forall (fun i => by_str_id (resolved w ids) !! product_id i
                   = find_product w (product_id i)) cart.
Proof.
  intros Hnd Hids. apply Forall_forall. intros i Hi.
  apply resolved_lookup; [exact Hnd|].
  intros d _ Hd.
  destruct (proj1 (list_elem_of_lookup _ _) Hi) as [n Hn].
  destruct (Forall2_lookup_l _ _ _ _ _ Hids Hn) as (o & Ho & Hs).
  assert (o = p_id d) as <-.
  { apply BsonFacts.str_inj. rewrite Hs, <- Hd.
    destruct (p_id d) as [s Hcan]. simpl.
    apply BsonFacts.canonical_lower, Is_true_true, Hcan. }
  apply list_elem_of_In. apply list_elem_of_lookup. eauto.
Qed.

Lemma named_products (w : world) (cart : list CartItem) :
  Forall (fun i => is_Some (find_product w (product_id i))) cart ->
  exists ds, Forall2 (fun i d => find_product w (product_id i) = Some d) cart ds.
Proof.
  induction 1 as [|i cart [d Hd] _ [ds IH]].
  - exists []. constructor.
  - exists (d :: ds). constructor; assumption.
Qed.

Lemma find_product_str (w : world) pid d :
  find_product w pid = Some d -> pid = Bson.str (p_id d).
Proof.
  intros H. apply find_some_in in H as [_ H]. apply String.eqb_eq in H. congruence.
Qed.

(** A cart whose every line names a product is accepted: the order
    document holds one line item per cart line, in order, and the rounded
    sum of the line amounts. *)
Lemma create_order_ok (order : OrderIn) (w : world) (ds : list Product_doc) :
  unique_product_ids w ->
  items order <> [] ->
  Forall2 (fun i d => find_product w (product_id i) = Some d) (items order) ds ->
  fresh_order_id w ->
  let doc := new_order order (zip_with enrich (items order) ds)
               (PyFloat.sum (map (line_amount w) (items order))) w in
  create_order order w = (Return (order_out doc), after_order doc w).
Proof.
  intros Hnd Hne Hds Hfresh doc.
  assert (Hstr : Forall2 (fun i o => product_id i = Bson.str o) (items order) (map p_id ds)).
  { apply Forall2_fmap_r. eapply Forall2_impl; [exact Hds|].
    intros i d Hd. simpl. apply (find_product_str w), Hd. }
  pose proof (validate_all_str _ _ w Hstr) as Hv.
  assert (Hlow : Forall2 (fun i o => Bson.str o = Bson.lower (product_id i))
                   (items order) (map p_id ds)).
  { eapply Forall2_impl; [exact Hstr|]. intros i o ->.
    destruct o as [s Hcan]. simpl. symmetry.
    apply BsonFacts.canonical_lower, Is_true_true, Hcan. }
  pose proof (resolved_cart w _ _ Hnd Hlow) as Hres.
  assert (Hdict : Forall2 (fun i d => by_str_id (resolved w (map p_id ds)) !! product_id i = Some d)
                    (items order) ds).
  { remember (by_str_id (resolved w (map p_id ds))) as prods eqn:Hprods.
    clear -Hds Hres. generalize dependent (items order). intros cart Hds Hres.
    induction Hds as [|i d cart ds Hi _ IH]; [constructor|].
    apply Forall_cons in Hres as [Hr Hres]. constructor; [congruence | auto]. }
  rewrite (create_order_priced order w _ _ _ Hv Hne
             (price_lines_return _ _ _ [] PyFloat.zero Hdict) Hfresh).
  simpl. rewrite (amounts_line_amount w _ _ Hds). reflexivity.
Qed.

(** ** The total of an order *)


Lemma sample_shop_unique : unique_product_ids Sample.shop.
Proof.
  unfold unique_product_ids.
  refine (bool_decide_unpack (NoDup _) _). vm_compute. exact I.
Qed.


(** The spec's example, two products at 19.99 and one at 5.005: the
    running total is the float just below 44.985 and the order's total is
    44.98. *)
Example create_order_example_total :
  out_total_amount <$> (match fst (create_order Sample.example_cart Sample.shop) with
                        | Return out => Some out
                        | Raise _ => None
                        end)
  = Some (PyFloat.dec 4498 100).
Proof. vm_compute. reflexivity. Qed.

(** The same id in upper case is a valid object id and denotes the ring,
    yet it is not the key under which the ring was filed in [prods]:
    [create_order] calls it an invalid product.  A cart line names a
    product by the printed form of its id. *)
Example create_order_upper_case_id :
  Bson.is_valid "64B7F0C2A1D3E4F5A6B7C801" = true
  /\ fst (validate "64B7F0C2A1D3E4F5A6B7C801" Sample.shop) = Return Sample.ring_id
  /\ fst (create_order
            (Sample.cart [{| product_id := "64B7F0C2A1D3E4F5A6B7C801"; quantity := 1 |}])
            Sample.shop)
     = Raise (HTTPException 400 "Invalid product 64B7F0C2A1D3E4F5A6B7C801").
Proof. repeat split; vm_compute; reflexivity. Qed.

(** ** What a successful [create_order] did *)

Lemma fresh_order_id_dec (w : world) : {fresh_order_id w} + {~ fresh_order_id w}.
Proof. unfold fresh_order_id. destruct (existsb _ _); [right | left]; congruence. Qed.

(** An order is returned only for a non-empty cart whose every line names
    a product, and then it is the order [create_order_ok] describes. *)
Lemma create_order_inv (order : OrderIn) (w w' : world) (out : OrderOut) :
  unique_product_ids w ->
  create_order order w = (Return out, w') ->
  exists ds,
    Forall2 (fun i d => find_product w (product_id i) = Some d) (items order) ds
    /\ items order <> []
    /\ fresh_order_id w
    /\ out = order_out (new_order order (zip_with enrich (items order) ds)
                          (PyFloat.sum (map (line_amount w) (items order))) w)
    /\ w' = after_order (new_order order (zip_with enrich (items order) ds)
                           (PyFloat.sum (map (line_amount w) (items order))) w) w.
Proof.
  intros Hnd Hrun.
  assert (Hne : items order <> []).
  { intros Hnil. unfold create_order in Hrun. rewrite Hnil in Hrun. discriminate. }
  destruct (validate_all_cases (items order) w) as [(ids & Hv & Hids & _) | [Hv _]].
  2: { rewrite (create_order_malformed _ _ _ Hv Hne) in Hrun. discriminate. }
  pose proof (resolved_cart w _ _ Hnd Hids) as Hres.
  destruct (price_lines_cases (by_str_id (resolved w ids)) (items order) [] PyFloat.zero)
    as [(ds & Hds & Hp) | (pre & i & post & _ & _ & _ & Hp)].
  2: { rewrite (create_order_invalid _ _ _ _ Hv Hne Hp) in Hrun. discriminate. }
  destruct (fresh_order_id_dec w) as [Hfresh | Hdup].
  2: { rewrite (create_order_duplicate _ _ _ _ _ Hv Hne Hp Hdup) in Hrun. discriminate. }
  assert (Hfound : Forall2 (fun i d => find_product w (product_id i) = Some d)
                     (items order) ds).
  { remember (by_str_id (resolved w ids)) as prods eqn:Hprods.
    clear -Hds Hres. generalize dependent (items order). intros cart Hres Hds.
    induction Hds as [|i d cart ds Hi _ IH]; [constructor|].
    apply Forall_cons in Hres as [Hr Hres]. constructor; [congruence | auto]. }
  exists ds. split; [exact Hfound|]. split; [exact Hne|]. split; [exact Hfresh|].
  rewrite (create_order_ok order w ds Hnd Hne Hfound Hfresh) in Hrun.
  inversion Hrun. split; reflexivity.
Qed.

(** ** The line items of an order *)


(** The example cart on the sample shop, run in full. *)
Lemma sample_order_runs :
  create_order Sample.example_cart Sample.shop
  = (Return (order_out (new_order Sample.example_cart
               (zip_with enrich (items Sample.example_cart)
                  [Sample.product Sample.ring_id "ring" (Some (NFloat (PyFloat.dec 1999 100)));
                   Sample.product Sample.chain_id "chain" (Some (NFloat (PyFloat.dec 5005 1000)))])
               (PyFloat.sum (map (line_amount Sample.shop) (items Sample.example_cart)))
               Sample.shop)),
     after_order (new_order Sample.example_cart
               (zip_with enrich (items Sample.example_cart)
                  [Sample.product Sample.ring_id "ring" (Some (NFloat (PyFloat.dec 1999 100)));
                   Sample.product Sample.chain_id "chain" (Some (NFloat (PyFloat.dec 5005 1000)))])
               (PyFloat.sum (map (line_amount Sample.shop) (items Sample.example_cart)))
               Sample.shop) Sample.shop).
Proof.
  apply create_order_ok.
  - exact sample_shop_unique.
  - discriminate.
  - repeat constructor.
  - reflexivity.
Qed.


(** ** A product without a price *)

Lemma mul_zero_quantity (q : Z) :
  1 <= q <= 10 -> PyFloat.mul PyFloat.zero (PyFloat.of_int q) = PyFloat.zero.
Proof.
  intros Hq.
  assert (q = 1 \/ q = 2 \/ q = 3 \/ q = 4 \/ q = 5 \/ q = 6 \/ q = 7 \/ q = 8
          \/ q = 9 \/ q = 10) as Hcases by lia.
  repeat (destruct Hcases as [-> | Hcases]; [reflexivity|]).
  subst q. reflexivity.
Qed.

(** Adding [0.0] changes no running total but [-0.0]. *)
Lemma add_zero_r (t : float) : t <> S754_zero true -> PyFloat.add t PyFloat.zero = t.
Proof. destruct t as [[]| | |]; intros H; try reflexivity. congruence. Qed.

(** C10. In a cart whose every line names a product, a line whose product
    document has no [price] field does not make [create_order] fail: the
    order is returned, the line item at that line's position carries the
    price [0.0], and the amount the line adds to the sum that is rounded
    into [total_amount] is [0.0], which leaves a running total as it
    is. *)
Theorem create_order_missing_price (order : OrderIn) (w : world) (n : nat)
    (item : CartItem) (prod : Product_doc) :
  unique_product_ids w ->
  fresh_order_id w ->
  Forall (fun i => is_Some (find_product w (product_id i))) (items order) ->
  items order !! n = Some item ->
  valid_quantity item ->
  find_product w (product_id item) = Some prod ->
  p_price prod = None ->
  exists out w' li,
    create_order order w = (Return out, w')
    /\ out_items out !! n = Some li
    /\ li_product_id li = product_id item
    /\ li_price li = PyFloat.zero
    /\ line_amount w item = PyFloat.zero
    /\ out_total_amount out
       = PyFloat.round2 (PyFloat.sum (map (line_amount w) (items order)))
    /\ (forall t, t <> S754_zero true -> PyFloat.add t (line_amount w item) = t).
Proof.
  intros Hnd Hfresh Hall Hn Hq Hprod Hprice.
  assert (Hne : items order <> []) by (intros Hnil; rewrite Hnil in Hn; discriminate).
  destruct (named_products w _ Hall) as [ds Hds].
  destruct (Forall2_lookup_l _ _ _ _ _ Hds Hn) as (d & Hd & Hfound).
  assert (d = prod) as -> by congruence.
  assert (Hsnap : snapshot_price prod = PyFloat.zero).
  { unfold snapshot_price. rewrite Hprice. reflexivity. }
  assert (Hamount : line_amount w item = PyFloat.zero).
  { unfold line_amount, amount. rewrite Hprod, Hsnap. apply mul_zero_quantity, Hq. }
  eexists _, _, (enrich item prod).
  split; [apply (create_order_ok order w ds Hnd Hne Hds Hfresh)|].
  split.
  { simpl. rewrite lookup_zip_with, Hn, Hd. reflexivity. }
  split; [reflexivity|]. split; [exact Hsnap|]. split; [exact Hamount|].
  split; [reflexivity|].
  intros t Ht. rewrite Hamount. apply add_zero_r, Ht.
Qed.

(** A ring and three charms, the charm having no price. *)
Lemma create_order_missing_price_witness :
  exists out w' li,
    create_order (Sample.cart [Sample.line Sample.ring_id 1; Sample.line Sample.charm_id 3])
      Sample.shop = (Return out, w')
    /\ out_items out !! 1%nat = Some li
    /\ li_product_id li = product_id (Sample.line Sample.charm_id 3)
    /\ li_price li = PyFloat.zero
    /\ line_amount Sample.shop (Sample.line Sample.charm_id 3) = PyFloat.zero
    /\ out_total_amount out
       = PyFloat.round2
           (PyFloat.sum
              (map (line_amount Sample.shop)
                 (items (Sample.cart [Sample.line Sample.ring_id 1;
                                      Sample.line Sample.charm_id 3]))))
    /\ (forall t, t <> S754_zero true ->
                  PyFloat.add t (line_amount Sample.shop (Sample.line Sample.charm_id 3)) = t).
Proof.
  apply (create_order_missing_price
           (Sample.cart [Sample.line Sample.ring_id 1; Sample.line Sample.charm_id 3])
           Sample.shop 1 (Sample.line Sample.charm_id 3)
           (Sample.product Sample.charm_id "charm" None)).
  - exact sample_shop_unique.
  - reflexivity.
  - repeat constructor; vm_compute; eauto.
  - reflexivity.
  - unfold valid_quantity. simpl. lia.
  - reflexivity.
  - reflexivity.
Defined.

(** ** The timestamps of an order *)

(** The stored order is [pending]; [created_at] is the first reading of the
    clock that [create_order] takes and [updated_at] the second. *)
Lemma create_order_stored (order : OrderIn) (w w' : world) (out : OrderOut) :
  unique_product_ids w ->
  create_order order w = (Return out, w') ->
  exists doc,
    stored_order w' (out_id out) = Some doc
    /\ o_items doc = out_items out
    /\ o_total_amount doc = out_total_amount out
    /\ o_status doc = "pending"
    /\ o_created_at doc = clock w (clock_reads w)
    /\ o_updated_at doc = clock w (S (clock_reads w)).
Proof.
  intros Hnd Hrun.
  destruct (create_order_inv order w w' out Hnd Hrun) as (ds & _ & _ & Hfresh & -> & ->).
  eexists. split; [|repeat split].
  unfold stored_order, after_order.
  cbn [db_order add_log set_order next_oid tick].
  exact (find_inserted w (new_order order _ _ w) Hfresh).
Qed.

(** C7, on the sample shop, whose clock advances by one tick between two
    readings: the stored order is [pending], [created_at] is the reading
    1700000000 and [updated_at] the next reading 1700000001, so the two
    timestamps differ. *)
Theorem create_order_timestamps_differ :
  exists out w' doc,
    create_order Sample.example_cart Sample.shop = (Return out, w')
    /\ stored_order w' (out_id out) = Some doc
    /\ o_status doc = "pending"
    /\ o_created_at doc = 1700000000
    /\ o_updated_at doc = 1700000001
    /\ o_created_at doc <> o_updated_at doc.
Proof.
  destruct (create_order_stored _ _ _ _ sample_shop_unique sample_order_runs)
    as (doc & Hdoc & _ & _ & Hst & Hc & Hu).
  eexists _, _, doc. split; [exact sample_order_runs|].
  split; [exact Hdoc|]. split; [exact Hst|].
  split; [exact Hc|]. split; [exact Hu|].
  rewrite Hc, Hu. discriminate.
Qed.

(** ** A cart that names a product the catalog lacks *)




(** ** Marking an order paid *)


Lemma update_first_some {D} (p : D -> bool) (f : D -> D) (l : list D) (d : D) :
  List.find p l = Some d ->
  exists pre post,
    l = pre ++ d :: post
    /\ List.find p pre = None
    /\ update_first p f l = (pre ++ f d :: post, 1).
Proof.
  induction l as [|x l IH]; simpl; [discriminate|].
  destruct (p x) eqn:Hx.
  - intros [= ->]. exists [], l. repeat split.
  - intros H. destruct (IH H) as (pre & post & -> & Hpre & Hup).
    exists (x :: pre), post. simpl. rewrite Hx, Hup. repeat split. exact Hpre.
Qed.

(** A malformed id is refused by [PyObjectId.validate] before anything
    else happens. *)
Lemma mark_order_paid_malformed (order_id : string) (w : world) :
  Bson.is_valid order_id = false ->
  mark_order_paid order_id w = (Raise (ValueError "Invalid ObjectId"), w).
Proof.
  intros Hv. unfold mark_order_paid.
  rewrite (bind_raise _ _ _ _ _ (validate_invalid _ w Hv)). reflexivity.
Qed.

Lemma mark_order_paid_run (order_id : string) (w : world) :
  Bson.is_valid order_id = true ->
  mark_order_paid order_id w
  = let '(c, n) := update_first
                     (fun d => String.eqb (Bson.str (o_id d)) (Bson.lower order_id))
                     (set_paid (clock w (clock_reads w))) (db_order w) in
    (if n =? 0 then Raise (HTTPException 404 "Order not found")
     else Return {| ok := true |},
     after_mark c w).
Proof.
  intros Hv. unfold mark_order_paid.
  destruct (validate_valid order_id w Hv) as (oid & Ho & Hs).
  rewrite (bind_return _ _ _ _ _ Ho).
  unfold Db.order_update_one, utcnow, bind, modify, get_world, ret, raise.
  cbn [db_order add_log tick clock clock_reads fst snd].
  unfold oid_eqb. rewrite Hs.
  destruct (update_first _ _ (db_order w)) as [c n].
  destruct (n =? 0); reflexivity.
Qed.


Lemma mark_order_paid_found (order_id : string) (w : world) (doc : Order_doc) :
  Bson.is_valid order_id = true ->
  stored_order w (Bson.lower order_id) = Some doc ->
  exists w',
    mark_order_paid order_id w = (Return {| ok := true |}, w')
    /\ stored_order w' (Bson.lower order_id)
       = Some (set_paid (clock w (clock_reads w)) doc)
    /\ db_product w' = db_product w.
Proof.
  intros Hv Hsome. rewrite (mark_order_paid_run _ _ Hv).
  unfold stored_order in Hsome.
  destruct (update_first_some _ (set_paid (clock w (clock_reads w))) _ _ Hsome)
    as (pre & post & Hsplit & Hpre & Hup).
  rewrite Hup. eexists. split; [reflexivity|]. split; [|reflexivity].
  unfold stored_order, after_mark. cbn [db_order set_order add_log tick].
  rewrite find_app, Hpre. simpl.
  apply find_some_in in Hsome as [_ Hdoc]. rewrite Hdoc. reflexivity.
Qed.



(** C9. Marking paid an order that is already paid succeeds, with the
    acknowledgement [{"ok": True}], and the stored order is still
    ["paid"], with the line items and the total it had. *)
Theorem mark_order_paid_again (order_id : string) (w : world) (doc : Order_doc) :
  Bson.is_valid order_id = true ->
  stored_order w (Bson.lower order_id) = Some doc ->
  o_status doc = "paid" ->
  exists w' doc',
    mark_order_paid order_id w = (Return {| ok := true |}, w')
    /\ stored_order w' (Bson.lower order_id) = Some doc'
    /\ o_status doc' = "paid"
    /\ o_items doc' = o_items doc
    /\ o_total_amount doc' = o_total_amount doc.
Proof.
  intros Hv Hsome _.
  destruct (mark_order_paid_found _ _ _ Hv Hsome) as (w' & Hrun & Hstored & _).
  exists w', (set_paid (clock w (clock_reads w)) doc).
  split; [exact Hrun|]. split; [exact Hstored|]. repeat split.
Qed.

(** The sample order, marked paid a second time. *)
Lemma mark_order_paid_again_witness :
  exists w' doc',
    mark_order_paid Sample.order_id Sample.paid_shop = (Return {| ok := true |}, w')
    /\ stored_order w' Sample.order_id = Some doc'
    /\ o_status doc' = "paid".
Proof.
  edestruct (mark_order_paid_again Sample.order_id Sample.paid_shop)
    as (w' & doc' & Hrun & Hstored & Hstatus & _).
  - reflexivity.
  - vm_compute. reflexivity.
  - reflexivity.
  - exists w', doc'. split; [exact Hrun|]. split; [exact Hstored | exact Hstatus].
Defined.

(** ** Orders are snapshots *)

Lemma same_snapshot_refl (d : Order_doc) : same_snapshot d d.
Proof. repeat split. Qed.

Lemma Forall2_same_snapshot_refl (l : list Order_doc) : Forall2 same_snapshot l l.
Proof. induction l; constructor; [apply same_snapshot_refl | assumption]. Qed.

Lemma orders_kept_eq (w w' : world) : db_order w' = db_order w -> orders_kept w w'.
Proof.
  intros H. exists (db_order w), []. rewrite app_nil_r.
  split; [exact H | apply Forall2_same_snapshot_refl].
Qed.

Lemma orders_kept_trans (w1 w2 w3 : world) :
  orders_kept w1 w2 -> orders_kept w2 w3 -> orders_kept w1 w3.
Proof.
  intros (k1 & a1 & H1 & F1) (k2 & a2 & H2 & F2).
  rewrite H1 in F2. apply Forall2_app_inv_l in F2 as (k2a & k2b & Fa & Fb & ->).
  exists k2a, (k2b ++ a2). split; [rewrite H2, app_assoc; reflexivity|].
  clear -F1 Fa. revert k2a Fa.
  induction F1 as [|d d' l l' Hd _ IH]; intros k Fa; inversion Fa; subst; constructor.
  - destruct Hd as (Ha & Hb & Hc).
    match goal with H : same_snapshot d' _ |- _ => destruct H as (Ha' & Hb' & Hc') end.
    repeat split; congruence.
  - auto.
Qed.

Lemma update_first_kept (p : Order_doc -> bool) (now : datetime) (l : list Order_doc) :
  Forall2 same_snapshot l (fst (update_first p (set_paid now) l)).
Proof.
  induction l as [|d l IH]; simpl; [constructor|].
  destruct (p d).
  - simpl. constructor; [repeat split | apply Forall2_same_snapshot_refl].
  - destruct (update_first p (set_paid now) l) as [l' n]. simpl in *.
    constructor; [apply same_snapshot_refl | exact IH].
Qed.

(** Unfolds a handler down to the store and decides every test on the
    way. *)
Ltac run_handler :=
  unfold bind, ret, raise, modify, get_world, lift;
  repeat (simpl;
          match goal with
          | |- context [match ?x with _ => _ end] =>
              lazymatch x with
              | context [match _ with _ => _ end] => fail
              | _ => destruct x eqn:?
              end
          end);
  simpl.

Lemma require_admin_world (tok : string) (w : world) : snd (require_admin tok w) = w.
Proof. unfold require_admin. run_handler; reflexivity. Qed.

Lemma validate_world (v : string) (w : world) : snd (validate v w) = w.
Proof. unfold validate. run_handler; reflexivity. Qed.

Lemma create_product_orders (payload : ProductIn) (w : world) :
  db_order (snd (create_product payload w)) = db_order w.
Proof.
  unfold create_product, create_document_product, Db.product_insert_one, utcnow.
  run_handler; reflexivity.
Qed.

Lemma update_product_orders (pid : string) (payload : ProductIn) (w : world) :
  db_order (snd (update_product pid payload w)) = db_order w.
Proof.
  unfold update_product, validate, Db.product_update_one, Db.product_find_one, utcnow.
  run_handler; reflexivity.
Qed.

Lemma delete_product_orders (pid : string) (w : world) :
  db_order (snd (delete_product pid w)) = db_order w.
Proof.
  unfold delete_product, validate, Db.product_delete_one.
  run_handler; reflexivity.
Qed.

Lemma get_order_orders (oid : string) (w : world) :
  db_order (snd (get_order oid w)) = db_order w.
Proof.
  unfold get_order, validate, Db.order_find_one.
  run_handler; reflexivity.
Qed.

Lemma create_order_kept (order : OrderIn) (w : world) :
  orders_kept w (snd (create_order order w)).
Proof.
  destruct (items order) as [|i0 cart0] eqn:Hitems.
  { unfold create_order. rewrite Hitems. apply orders_kept_eq. reflexivity. }
  assert (Hne : items order <> []) by (rewrite Hitems; discriminate).
  clear Hitems.
  destruct (validate_all_cases (items order) w) as [(ids & Hv & _ & _) | [Hv _]].
  2: { rewrite (create_order_malformed _ _ _ Hv Hne). apply orders_kept_eq. reflexivity. }
  destruct (price_lines_cases (by_str_id (resolved w ids)) (items order) [] PyFloat.zero)
    as [(ds & _ & Hp) | (pre & i & post & _ & _ & _ & Hp)].
  2: { rewrite (create_order_invalid _ _ _ _ Hv Hne Hp). apply orders_kept_eq. reflexivity. }
  destruct (fresh_order_id_dec w) as [Hfresh | Hdup].
  2: { rewrite (create_order_duplicate _ _ _ _ _ Hv Hne Hp Hdup).
       apply orders_kept_eq. reflexivity. }
  rewrite (create_order_priced _ _ _ _ _ Hv Hne Hp Hfresh).
  eexists (db_order w), [_]. split; [reflexivity | apply Forall2_same_snapshot_refl].
Qed.

Lemma mark_order_paid_kept (order_id : string) (w : world) :
  orders_kept w (snd (mark_order_paid order_id w)).
Proof.
  destruct (Bson.is_valid order_id) eqn:Hv.
  - rewrite (mark_order_paid_run _ _ Hv).
    pose proof (update_first_kept
                  (fun d => String.eqb (Bson.str (o_id d)) (Bson.lower order_id))
                  (clock w (clock_reads w)) (db_order w)) as Hkept.
    destruct (update_first _ _ (db_order w)) as [c n]. simpl in *.
    exists c, []. rewrite app_nil_r. split; [reflexivity | exact Hkept].
  - rewrite (mark_order_paid_malformed _ _ Hv). apply orders_kept_eq. reflexivity.
Qed.

(** Whatever is bound after [require_admin], the orders that the guarded
    handler keeps are kept. *)
Lemma guarded_kept {A B} (tok : string) (h : M A) (k : A -> B) (w : world) :
  (forall w0, orders_kept w0 (snd (h w0))) ->
  orders_kept w (snd (bind (require_admin tok) (fun _ => bind h (fun x => ret (k x))) w)).
Proof.
  intros Hh. unfold bind at 1.
  destruct (require_admin tok w) as [[[]|e] w1] eqn:Hadmin.
  - pose proof (require_admin_world tok w) as Hw. rewrite Hadmin in Hw. simpl in Hw. subst w1.
    specialize (Hh w). unfold bind, ret. destruct (h w) as [[a|e] w2]; exact Hh.
  - pose proof (require_admin_world tok w) as Hw. rewrite Hadmin in Hw. simpl in Hw. subst w1.
    apply orders_kept_eq. reflexivity.
Qed.

Lemma unguarded_kept {A B} (h : M A) (k : A -> B) (w : world) :
  orders_kept w (snd (h w)) ->
  orders_kept w (snd (bind h (fun x => ret (k x)) w)).
Proof. unfold bind, ret. destruct (h w) as [[a|e] w2]; auto. Qed.

(** Every request keeps the orders. *)
Lemma handle_kept (r : request) (w : world) : orders_kept w (snd (handle r w)).
Proof.
  destruct r; simpl.
  - apply guarded_kept. intros w0. apply orders_kept_eq, create_product_orders.
  - apply guarded_kept. intros w0. apply orders_kept_eq, update_product_orders.
  - apply guarded_kept. intros w0. apply orders_kept_eq, delete_product_orders.
  - apply unguarded_kept, create_order_kept.
  - apply unguarded_kept, orders_kept_eq, get_order_orders.
  - apply guarded_kept. intros w0. apply mark_order_paid_kept.
Qed.

Lemma serve_kept (rs : list request) (w : world) : orders_kept w (serve rs w).
Proof.
  revert w. induction rs as [|r rs IH]; intros w.
  - apply orders_kept_eq. reflexivity.
  - simpl. eapply orders_kept_trans; [apply handle_kept | apply IH].
Qed.

Lemma stored_order_kept (w w' : world) (id : string) (doc : Order_doc) :
  orders_kept w w' ->
  stored_order w id = Some doc ->
  exists doc', stored_order w' id = Some doc' /\ same_snapshot doc doc'.
Proof.
  intros (kept & added & Hw' & Hkept). unfold stored_order. rewrite Hw', find_app.
  clear Hw'. induction Hkept as [|d d' l l' Hd _ IH]; simpl; [discriminate|].
  destruct Hd as (Hid & Hitems & Htotal). rewrite Hid.
  destruct (String.eqb (Bson.str (o_id d)) id).
  - intros [= <-]. exists d'. repeat split; assumption.
  - exact IH.
Qed.

(** C5. Whatever requests are served after an order was stored, updates
    of product prices included, the order stored under that id keeps the
    line items, with their prices, and the total it had. *)
Theorem order_snapshot_immutable (w : world) (rs : list request) (id : string)
    (doc : Order_doc) :
  stored_order w id = Some doc ->
  exists doc',
    stored_order (serve rs w) id = Some doc'
    /\ o_items doc' = o_items doc
    /\ o_total_amount doc' = o_total_amount doc.
Proof.
  intros Hdoc.
  destruct (stored_order_kept w (serve rs w) id doc (serve_kept rs w) Hdoc)
    as (doc' & Hdoc' & _ & Hitems & Htotal).
  exists doc'. split; [exact Hdoc'|]. split; assumption.
Qed.

(** The sample order, after the ring was repriced and the order paid. *)
Lemma order_snapshot_immutable_witness :
  exists doc doc',
    stored_order Sample.open_shop Sample.order_id = Some doc
    /\ stored_order
         (serve [PUT_product "admin123" (Bson.str Sample.ring_id) Sample.repriced_ring;
                 POST_mark_paid "admin123" Sample.order_id]
            Sample.open_shop) Sample.order_id = Some doc'
    /\ o_items doc' = o_items doc
    /\ o_total_amount doc' = o_total_amount doc.
Proof.
  eexists.
  edestruct (order_snapshot_immutable Sample.open_shop
               [PUT_product "admin123" (Bson.str Sample.ring_id) Sample.repriced_ring;
                POST_mark_paid "admin123" Sample.order_id]
               Sample.order_id) as (doc' & Hdoc' & Hitems & Htotal).
  - vm_compute. reflexivity.
  - exists doc'. split; [reflexivity|]. split; [exact Hdoc'|]. split; assumption.
Defined.

(** The update of the witness does change the price the catalog holds for
    the ring, from 19.99 to 24.99, while the order keeps 19.99. *)
Example price_update_takes_effect :
  p_price <$> find_product
                (serve [PUT_product "admin123" (Bson.str Sample.ring_id) Sample.repriced_ring]
                   Sample.open_shop)
                (Bson.str Sample.ring_id)
  = Some (Some (NFloat (PyFloat.dec 2499 100)))
  /\ (li_price <$> (o_items <$> stored_order
                (serve [PUT_product "admin123" (Bson.str Sample.ring_id) Sample.repriced_ring]
                   Sample.open_shop) Sample.order_id) ≫= head)
     = Some (PyFloat.dec 1999 100).
Proof. split; vm_compute; reflexivity. Qed.

(** ** The total and the order of the lines *)


(** ** Floats: when the order of a sum does not matter *)

Module FloatFacts.
Import PyFloat.

(** *** Rounding to hundredths depends on the value only *)





(** *** Values *)







(** *** Exact additions *)





Lemma binary_round_false (m : positive) (e : Z) :
  binary_round prec emax false m e <> S754_zero true.
Proof.
  unfold binary_round, binary_round_aux.
  destruct (shl_align _ _ _) as [mz ez].
  destruct (shr_fexp _ _ _ _ _) as [mrs' e'].
  destruct (shr_fexp _ _ _ _ _) as [mrs'' e''].
  destruct (shr_m mrs''); [discriminate | | discriminate].
  destruct (e'' <=? emax - prec); discriminate.
Qed.





End FloatFacts.




(** The two orders of the witness total 30.5. *)
Example bangle_total :
  out_total_amount <$> (match fst (create_order Sample.bangle_last Sample.shop) with
                        | Return out => Some out
                        | Raise _ => None
                        end)
  = Some (PyFloat.dec 305 10).
Proof. vm_compute. reflexivity. Qed.

(** ** Validating ids *)


(** ** Updating and deleting by id *)

Lemma find_update_other {D} (p q : D -> bool) (f : D -> D) (l : list D) :
  (forall d, q (f d) = q d) ->
  (forall d, p d = true -> q d = false) ->
  List.find q (fst (update_first p f l)) = List.find q l.
Proof.
  intros Hf Hpq. induction l as [|d l IH]; simpl; [reflexivity|].
  destruct (p d) eqn:Hp; simpl.
  - rewrite Hf, (Hpq d Hp). reflexivity.
  - destruct (update_first p f l) as [l' n]. simpl in *.
    destruct (q d); [reflexivity | exact IH].
Qed.


Lemma delete_first_some {D} (p : D -> bool) (l : list D) (d : D) :
  List.find p l = Some d ->
  exists pre post,
    l = pre ++ d :: post
    /\ List.find p pre = None
    /\ delete_first p l = (pre ++ post, 1).
Proof.
  induction l as [|x l IH]; simpl; [discriminate|].
  destruct (p x) eqn:Hx.
  - intros [= ->]. exists [], l. repeat split.
  - intros H. destruct (IH H) as (pre & post & -> & Hpre & Hdel).
    exists (x :: pre), post. simpl. rewrite Hx, Hdel. repeat split. exact Hpre.
Qed.

Lemma find_delete_other {D} (p q : D -> bool) (l : list D) :
  (forall d, p d = true -> q d = false) ->
  List.find q (fst (delete_first p l)) = List.find q l.
Proof.
  intros Hpq. induction l as [|d l IH]; simpl; [reflexivity|].
  destruct (p d) eqn:Hp; simpl.
  - rewrite (Hpq d Hp). reflexivity.
  - destruct (delete_first p l) as [l' n]. simpl in *.
    destruct (q d); [reflexivity | exact IH].
Qed.

Lemma other_key (k k' x : string) :
  k' <> k -> String.eqb x k = true -> String.eqb x k' = false.
Proof.
  intros Hne Hx. apply String.eqb_eq in Hx. subst x.
  apply String.eqb_neq. congruence.
Qed.

Lemma update_product_malformed (pid : string) (payload : ProductIn) (w : world) :
  Bson.is_valid pid = false ->
  update_product pid payload w = (Raise (ValueError "Invalid ObjectId"), w).
Proof.
  intros Hv. unfold update_product.
  rewrite (bind_raise _ _ _ _ _ (validate_invalid _ w Hv)). reflexivity.
Qed.

Lemma update_product_run (pid : string) (payload : ProductIn) (w : world) :
  Bson.is_valid pid = true ->
  update_product pid payload w
  = let '(c, n) := update_first
                     (fun d => String.eqb (Bson.str (p_id d)) (Bson.lower pid))
                     (set_product_fields payload (clock w (clock_reads w)))
                     (db_product w) in
    if n =? 0
    then (Raise (HTTPException 404 "Product not found"), after_update c w)
    else (Return (to_str_id_product
                    <$> List.find (fun d => String.eqb (Bson.str (p_id d)) (Bson.lower pid)) c),
          add_log (FindOne "product") (after_update c w)).
Proof.
  intros Hv. unfold update_product.
  destruct (validate_valid pid w Hv) as (oid & Ho & Hs).
  rewrite (bind_return _ _ _ _ _ Ho).
  unfold Db.product_update_one, Db.product_find_one, utcnow, bind, modify, get_world,
    ret, raise.
  cbn [db_product add_log tick clock clock_reads fst snd].
  unfold oid_eqb. rewrite Hs.
  destruct (update_first _ _ (db_product w)) as [c n].
  destruct (n =? 0); reflexivity.
Qed.

Lemma update_product_replaces (pid : string) (payload : ProductIn) (w : world)
    (d : Product_doc) :
  Bson.is_valid pid = true ->
  find_product w (Bson.lower pid) = Some d ->
  exists w',
    update_product pid payload w
    = (Return (Some (to_str_id_product
                       {| p_id := p_id d;
                          p_name := Some (name payload);
                          p_description := description payload;
                          p_price := Some (NFloat (price payload));
                          p_category := Some (category payload);
                          p_image_url := image_url payload;
                          p_in_stock := Some (in_stock payload);
                          p_created_at := p_created_at d;
                          p_updated_at := Some (clock w (clock_reads w)) |})), w')
    /\ find_product w' (Bson.lower pid)
       = Some {| p_id := p_id d;
                 p_name := Some (name payload);
                 p_description := description payload;
                 p_price := Some (NFloat (price payload));
                 p_category := Some (category payload);
                 p_image_url := image_url payload;
                 p_in_stock := Some (in_stock payload);
                 p_created_at := p_created_at d;
                 p_updated_at := Some (clock w (clock_reads w)) |}
    /\ (forall k, k <> Bson.lower pid -> find_product w' k = find_product w k)
    /\ length (db_product w') = length (db_product w)
    /\ db_order w' = db_order w.
Proof.
  intros Hv Hd. rewrite (update_product_run _ _ _ Hv).
  unfold find_product in Hd.
  pose proof (find_update_other
                (fun x => String.eqb (Bson.str (p_id x)) (Bson.lower pid))) as Hother.
  destruct (update_first_some _ (set_product_fields payload (clock w (clock_reads w)))
              _ _ Hd) as (pre & post & Hsplit & Hpre & Hup).
  specialize (fun q => Hother q (set_product_fields payload (clock w (clock_reads w)))
                         (db_product w)).
  rewrite Hup in Hother |- *. simpl in Hother. cbn [Z.eqb].
  assert (Hfound : List.find (fun x => String.eqb (Bson.str (p_id x)) (Bson.lower pid))
                     (pre ++ set_product_fields payload (clock w (clock_reads w)) d :: post)
                   = Some (set_product_fields payload (clock w (clock_reads w)) d)).
  { rewrite find_app, Hpre. simpl.
    apply find_some_in in Hd as [_ Hk]. rewrite Hk. reflexivity. }
  eexists. split; [rewrite Hfound; reflexivity|].
  split; [exact Hfound|].
  split.
  { intros k Hk. unfold find_product, after_update.
    cbn [db_product set_product add_log tick].
    apply Hother; [reflexivity|]. intros x. apply other_key, Hk. }
  split; [|reflexivity].
  unfold after_update. cbn [db_product set_product add_log tick].
  rewrite Hsplit, !length_app. reflexivity.
Qed.

(** X2. [update_product] on the id of a product of the catalog replaces
    the fields of the payload in that product and stamps [updated_at]
    with the reading of the clock, keeps its [_id] and [created_at],
    answers with the document as it now is, and changes no other product
    and no order. *)
Theorem update_product_found (pid : string) (payload : ProductIn) (w : world)
    (d : Product_doc) :
  Bson.is_valid pid = true ->
  find_product w (Bson.lower pid) = Some d ->
  exists w',
    update_product pid payload w
    = (Return (Some (to_str_id_product
                       {| p_id := p_id d;
                          p_name := Some (name payload);
                          p_description := description payload;
                          p_price := Some (NFloat (price payload));
                          p_category := Some (category payload);
                          p_image_url := image_url payload;
                          p_in_stock := Some (in_stock payload);
                          p_created_at := p_created_at d;
                          p_updated_at := Some (clock w (clock_reads w)) |})), w')
    /\ find_product w' (Bson.lower pid)
       = Some {| p_id := p_id d;
                 p_name := Some (name payload);
                 p_description := description payload;
                 p_price := Some (NFloat (price payload));
                 p_category := Some (category payload);
                 p_image_url := image_url payload;
                 p_in_stock := Some (in_stock payload);
                 p_created_at := p_created_at d;
                 p_updated_at := Some (clock w (clock_reads w)) |}
    /\ (forall k, k <> Bson.lower pid -> find_product w' k = find_product w k)
    /\ length (db_product w') = length (db_product w)
    /\ db_order w' = db_order w.
Proof. apply update_product_replaces. Qed.


Lemma delete_product_malformed (pid : string) (w : world) :
  Bson.is_valid pid = false ->
  delete_product pid w = (Raise (ValueError "Invalid ObjectId"), w).
Proof.
  intros Hv. unfold delete_product.
  rewrite (bind_raise _ _ _ _ _ (validate_invalid _ w Hv)). reflexivity.
Qed.

Lemma delete_product_run (pid : string) (w : world) :
  Bson.is_valid pid = true ->
  delete_product pid w
  = let '(c, n) := delete_first
                     (fun d => String.eqb (Bson.str (p_id d)) (Bson.lower pid))
                     (db_product w) in
    (if n =? 0 then Raise (HTTPException 404 "Product not found") else Return true,
     after_delete c w).
Proof.
  intros Hv. unfold delete_product.
  destruct (validate_valid pid w Hv) as (oid & Ho & Hs).
  rewrite (bind_return _ _ _ _ _ Ho).
  unfold Db.product_delete_one, bind, modify, get_world, ret, raise.
  cbn [db_product add_log fst snd].
  unfold oid_eqb. rewrite Hs.
  destruct (delete_first _ (db_product w)) as [c n].
  destruct (n =? 0); reflexivity.
Qed.

Lemma find_none_after (w : world) (k : string) (pre post : list Product_doc)
    (d : Product_doc) :
  unique_product_ids w ->
  db_product w = pre ++ d :: post ->
  Bson.str (p_id d) = k ->
  List.find (fun x => String.eqb (Bson.str (p_id x)) k) post = None.
Proof.
  unfold unique_product_ids. intros Hnd Hsplit Hk.
  rewrite Hsplit, map_app in Hnd. simpl in Hnd.
  apply NoDup_app in Hnd as (_ & _ & Hnd). apply NoDup_cons in Hnd as [Hd _].
  apply find_none_iff. intros x Hx. apply String.eqb_neq. intros Hxk.
  apply Hd. apply list_elem_of_In, in_map_iff. exists x. split; [congruence | exact Hx].
Qed.

Lemma delete_product_removes (pid : string) (w : world) (d : Product_doc) :
  unique_product_ids w ->
  Bson.is_valid pid = true ->
  find_product w (Bson.lower pid) = Some d ->
  exists w',
    delete_product pid w = (Return true, w')
    /\ find_product w' (Bson.lower pid) = None
    /\ (forall k, k <> Bson.lower pid -> find_product w' k = find_product w k)
    /\ S (length (db_product w')) = length (db_product w)
    /\ db_order w' = db_order w.
Proof.
  intros Hnd Hv Hd. rewrite (delete_product_run _ _ Hv).
  unfold find_product in Hd.
  pose proof (find_delete_other
                (fun x => String.eqb (Bson.str (p_id x)) (Bson.lower pid))) as Hother.
  destruct (delete_first_some _ _ _ Hd) as (pre & post & Hsplit & Hpre & Hdel).
  specialize (fun q => Hother q (db_product w)).
  rewrite Hdel in Hother |- *. simpl in Hother. cbn [Z.eqb].
  eexists. split; [reflexivity|]. split.
  { unfold find_product, after_delete. cbn [db_product set_product add_log].
    rewrite find_app, Hpre.
    apply (find_none_after w _ pre post d Hnd Hsplit).
    apply find_some_in in Hd as [_ Hk]. apply String.eqb_eq in Hk. exact Hk. }
  split.
  { intros k Hk. unfold find_product, after_delete.
    cbn [db_product set_product add_log].
    apply Hother. intros x. apply other_key, Hk. }
  split; [|reflexivity].
  unfold after_delete. cbn [db_product set_product add_log].
  rewrite Hsplit, !length_app. simpl. lia.
Qed.

(** X4. In a catalog without duplicate ids, [delete_product] on the id
    of a product answers [{"deleted": True}] and removes that product:
    the id names no product afterwards, every other id names the product
    it named before, and no order is changed. *)
Theorem delete_product_found (pid : string) (w : world) (d : Product_doc) :
  unique_product_ids w ->
  Bson.is_valid pid = true ->
  find_product w (Bson.lower pid) = Some d ->
  exists w',
    delete_product pid w = (Return true, w')
    /\ find_product w' (Bson.lower pid) = None
    /\ (forall k, k <> Bson.lower pid -> find_product w' k = find_product w k)
    /\ S (length (db_product w')) = length (db_product w)
    /\ db_order w' = db_order w.
Proof. apply delete_product_removes. Qed.


(** ** Reading an order back *)

(** Whatever the catalog, an order is returned only after the document
    [new_order] describes was stored under a fresh id. *)
Lemma create_order_return (order : OrderIn) (w w' : world) (out : OrderOut) :
  create_order order w = (Return out, w') ->
  exists enriched total,
    fresh_order_id w
    /\ out = order_out (new_order order enriched total w)
    /\ w' = after_order (new_order order enriched total w) w.
Proof.
  intros Hrun.
  assert (Hne : items order <> []).
  { intros Hnil. unfold create_order in Hrun. rewrite Hnil in Hrun. discriminate. }
  destruct (validate_all_cases (items order) w) as [(ids & Hv & _ & _) | [Hv _]].
  2: { rewrite (create_order_malformed _ _ _ Hv Hne) in Hrun. discriminate. }
  destruct (price_lines_cases (by_str_id (resolved w ids)) (items order) [] PyFloat.zero)
    as [(ds & _ & Hp) | (pre & i & post & _ & _ & _ & Hp)].
  2: { rewrite (create_order_invalid _ _ _ _ Hv Hne Hp) in Hrun. discriminate. }
  destruct (fresh_order_id_dec w) as [Hfresh | Hdup].
  2: { rewrite (create_order_duplicate _ _ _ _ _ Hv Hne Hp Hdup) in Hrun. discriminate. }
  rewrite (create_order_priced _ _ _ _ _ Hv Hne Hp Hfresh) in Hrun.
  inversion Hrun. eexists _, _. split; [exact Hfresh|]. split; reflexivity.
Qed.

Lemma get_order_malformed (order_id : string) (w : world) :
  Bson.is_valid order_id = false ->
  get_order order_id w = (Raise (ValueError "Invalid ObjectId"), w).
Proof.
  intros Hv. unfold get_order.
  rewrite (bind_raise _ _ _ _ _ (validate_invalid _ w Hv)). reflexivity.
Qed.

Lemma get_order_run (order_id : string) (w : world) :
  Bson.is_valid order_id = true ->
  get_order order_id w
  = (match stored_order w (Bson.lower order_id) with
     | Some d => Return (to_str_id d)
     | None => Raise (HTTPException 404 "Order not found")
     end,
     add_log (FindOne "order") w).
Proof.
  intros Hv. unfold get_order.
  destruct (validate_valid order_id w Hv) as (oid & Ho & Hs).
  rewrite (bind_return _ _ _ _ _ Ho).
  unfold Db.order_find_one, bind, modify, get_world, ret, raise, stored_order.
  cbn [db_order add_log fst snd].
  unfold oid_eqb. rewrite Hs.
  destruct (List.find _ (db_order w)); reflexivity.
Qed.

Lemma str_lower (oid : ObjectId) : Bson.lower (Bson.str oid) = Bson.str oid.
Proof.
  destruct oid as [s Hcan]. simpl. apply BsonFacts.canonical_lower, Is_true_true, Hcan.
Qed.

(** X6. The id that [create_order] returns reads the order back:
    [get_order] on it answers with the stored document, which has that
    id, the items, total, status, payment method, customer and
    [created_at] of the order returned, and [updated_at] one reading of
    the clock later; reading changes no collection. *)
Theorem get_order_after_create (order : OrderIn) (w w1 : world) (out : OrderOut) :
  create_order order w = (Return out, w1) ->
  exists w2,
    get_order (out_id out) w1
    = (Return {| oj_id := out_id out;
                 oj_items := out_items out;
                 oj_total_amount := out_total_amount out;
                 oj_status := out_status out;
                 oj_payment_method := out_payment_method out;
                 oj_customer := out_customer out;
                 oj_created_at := Iso (out_created_at out);
                 oj_updated_at := Iso (clock w (S (clock_reads w))) |}, w2)
    /\ out_status out = "pending"
    /\ db_order w2 = db_order w1
    /\ db_product w2 = db_product w1.
Proof.
  intros Hrun.
  destruct (create_order_return _ _ _ _ Hrun) as (enriched & total & Hfresh & -> & ->).
  rewrite get_order_run by apply BsonFacts.str_valid.
  cbn [out_id order_out]. rewrite str_lower.
  unfold stored_order, after_order. cbn [db_order add_log set_order next_oid tick].
  pose proof (find_inserted w (new_order order enriched total w) Hfresh) as Hfind.
  unfold oid_eqb in Hfind. rewrite Hfind.
  eexists. split; [reflexivity|]. repeat split.
Qed.


(** ** What the order routes touch *)

(** X8. [mark_order_paid] changes at most the order it names: under
    every other id the same order is stored as before, whether the call
    succeeds or not, and the products are as before. *)
Theorem mark_order_paid_others (order_id : string) (w : world) :
  db_product (snd (mark_order_paid order_id w)) = db_product w
  /\ (forall id, id <> Bson.lower order_id ->
        stored_order (snd (mark_order_paid order_id w)) id = stored_order w id).
Proof.
  destruct (Bson.is_valid order_id) eqn:Hv.
  - rewrite (mark_order_paid_run _ _ Hv).
    pose proof (fun q => find_update_other
                  (fun d => String.eqb (Bson.str (o_id d)) (Bson.lower order_id)) q
                  (set_paid (clock w (clock_reads w))) (db_order w)) as Hother.
    destruct (update_first _ _ (db_order w)) as [c n]. simpl in *.
    split; [reflexivity|]. intros id Hid. unfold stored_order.
    apply Hother; [reflexivity|]. intros x. apply other_key, Hid.
  - rewrite (mark_order_paid_malformed _ _ Hv). split; reflexivity.
Qed.

(** The outcomes of [create_order]: an error that left both collections
    as they were, or an order whose document was appended to the orders. *)
Lemma create_order_outcomes (order : OrderIn) (w : world) :
  (exists e w', create_order order w = (Raise e, w')
                /\ db_order w' = db_order w /\ db_product w' = db_product w)
  \/ (exists enriched total,
        create_order order w
        = (Return (order_out (new_order order enriched total w)),
           after_order (new_order order enriched total w) w)).
Proof.
  destruct (items order) as [|i0 cart0] eqn:Hitems.
  { left. unfold create_order. rewrite Hitems. eexists _, _. repeat split. }
  assert (Hne : items order <> []) by (rewrite Hitems; discriminate).
  clear Hitems.
  destruct (validate_all_cases (items order) w) as [(ids & Hv & _ & _) | [Hv _]].
  2: { left. rewrite (create_order_malformed _ _ _ Hv Hne). eexists _, _. repeat split. }
  destruct (price_lines_cases (by_str_id (resolved w ids)) (items order) [] PyFloat.zero)
    as [(ds & _ & Hp) | (pre & i & post & _ & _ & _ & Hp)].
  2: { left. rewrite (create_order_invalid _ _ _ _ Hv Hne Hp). eexists _, _. repeat split. }
  destruct (fresh_order_id_dec w) as [Hfresh | Hdup].
  2: { left. rewrite (create_order_duplicate _ _ _ _ _ Hv Hne Hp Hdup).
       eexists _, _. repeat split. }
  right. rewrite (create_order_priced _ _ _ _ _ Hv Hne Hp Hfresh). eauto.
Qed.

(** X9. An order that is returned cost exactly three store operations,
    whatever the number of cart lines: one batch read of the products,
    one insert of the order and one read of the inserted order, in this
    order; the clock was read twice and one id was generated; the
    products are untouched and the orders have gained one document, the
    one with the returned id. *)
Theorem create_order_store_traffic (order : OrderIn) (w w' : world) (out : OrderOut) :
  create_order order w = (Return out, w') ->
  db_log w' = db_log w ++ [Find "product"; InsertOne "order"; FindOne "order"]
  /\ clock_reads w' = S (S (clock_reads w))
  /\ oid_made w' = S (oid_made w)
  /\ db_product w' = db_product w
  /\ exists doc, db_order w' = db_order w ++ [doc] /\ Bson.str (o_id doc) = out_id out.
Proof.
  intros Hrun.
  destruct (create_order_return _ _ _ _ Hrun) as (enriched & total & _ & -> & ->).
  split; [unfold after_order; cbn [db_log add_log set_order next_oid tick];
          rewrite <- !app_assoc; reflexivity|].
  split; [reflexivity|]. split; [reflexivity|]. split; [reflexivity|].
  eexists. split; reflexivity.
Qed.

(** X10. [create_order] is all or nothing and never touches the catalog:
    in every outcome the products are as before; when it raises, whatever
    the error, the orders are as before; when it returns, exactly one
    order document was appended, with status ["pending"]. *)
Theorem create_order_all_or_nothing (order : OrderIn) (w : world) :
  db_product (snd (create_order order w)) = db_product w
  /\ (forall e, fst (create_order order w) = Raise e ->
                db_order (snd (create_order order w)) = db_order w)
  /\ (forall out, fst (create_order order w) = Return out ->
                  exists doc,
                    db_order (snd (create_order order w)) = db_order w ++ [doc]
                    /\ o_status doc = "pending"
                    /\ o_items doc = out_items out
                    /\ o_total_amount doc = out_total_amount out).
Proof.
  destruct (create_order_outcomes order w)
    as [(e & w' & Hrun & Ho & Hp) | (enriched & total & Hrun)]; rewrite Hrun; simpl.
  - split; [exact Hp|]. split; [intros _ _; exact Ho | discriminate].
  - split; [reflexivity|]. split; [discriminate|].
    intros out [= <-]. eexists. repeat split.
Qed.

(** ** Ids stay unique *)

Lemma update_first_keys {D} (key : D -> string) (p : D -> bool) (f : D -> D)
    (l : list D) :
  (forall d, key (f d) = key d) ->
  map key (fst (update_first p f l)) = map key l.
Proof.
  intros Hf. induction l as [|d l IH]; simpl; [reflexivity|].
  destruct (p d); simpl.
  - rewrite Hf. reflexivity.
  - destruct (update_first p f l) as [l' n]. simpl in *. rewrite IH. reflexivity.
Qed.

Lemma delete_first_in {D} (p : D -> bool) (l : list D) (x : D) :
  In x (fst (delete_first p l)) -> In x l.
Proof.
  induction l as [|d l IH]; simpl; [tauto|].
  destruct (p d); simpl.
  - auto.
  - destruct (delete_first p l) as [l' n]. simpl in *. intros [->|H]; auto.
Qed.

Lemma delete_first_keys {D} (key : D -> string) (p : D -> bool) (l : list D) :
  NoDup (map key l) -> NoDup (map key (fst (delete_first p l))).
Proof.
  induction l as [|d l IH]; simpl; intros Hnd; [constructor|].
  apply NoDup_cons in Hnd as [Hd Hl].
  destruct (p d); simpl; [exact Hl|].
  pose proof (delete_first_in p l) as Hin.
  destruct (delete_first p l) as [l' n]. simpl in *.
  apply NoDup_cons. split; [|auto].
  intros Hk. apply Hd. apply list_elem_of_In in Hk. apply list_elem_of_In.
  apply in_map_iff in Hk as (x & Hx & Hxl). apply in_map_iff. eauto.
Qed.

Lemma snoc_keys {D} (key : D -> string) (l : list D) (d : D) :
  existsb (fun x => String.eqb (key x) (key d)) l = false ->
  NoDup (map key l) ->
  NoDup (map key (l ++ [d])).
Proof.
  intros Hfresh Hnd. rewrite map_app. simpl.
  apply NoDup_app. split; [exact Hnd|]. split; [|apply NoDup_singleton].
  intros k Hk Hd. apply list_elem_of_singleton in Hd. subst k.
  apply list_elem_of_In, in_map_iff in Hk as (x & Hx & Hxl).
  assert (existsb (fun x => String.eqb (key x) (key d)) l = true).
  { apply existsb_exists. exists x. split; [exact Hxl|]. apply String.eqb_eq, Hx. }
  congruence.
Qed.

(** What [create_product] does to the products: nothing, or it appends a
    document under the generated id, which no product had. *)
Lemma create_product_products (payload : ProductIn) (w : world) :
  db_product (snd (create_product payload w)) = db_product w
  \/ (existsb (fun d => String.eqb (Bson.str (p_id d)) (Bson.str (oid_gen w (oid_made w))))
         (db_product w) = false
      /\ exists doc,
           p_id doc = oid_gen w (oid_made w)
           /\ db_product (snd (create_product payload w)) = db_product w ++ [doc]).
Proof.
  unfold create_product, create_document_product, Db.product_insert_one, utcnow,
    bind, ret, raise, modify, get_world.
  cbn [db_product add_log tick next_oid clock clock_reads oid_gen oid_made fst snd].
  unfold oid_eqb.
  destruct (existsb _ (db_product w)) eqn:Hex; simpl.
  - left. reflexivity.
  - right. split; [reflexivity|]. eexists. split; [|reflexivity]. reflexivity.
Qed.

Lemma guarded_pred {A B} (P : world -> Prop) (tok : string) (h : M A) (k : A -> B)
    (w : world) :
  P w ->
  (P w -> P (snd (h w))) ->
  P (snd (bind (require_admin tok) (fun _ => bind h (fun x => ret (k x))) w)).
Proof.
  intros Hw Hh. unfold bind at 1.
  pose proof (require_admin_world tok w) as Hsame.
  destruct (require_admin tok w) as [[[]|e] w1]; simpl in Hsame; subst w1.
  - unfold bind, ret. specialize (Hh Hw). destruct (h w) as [[a|e] w2]; exact Hh.
  - exact Hw.
Qed.

Lemma unguarded_pred {A B} (P : world -> Prop) (h : M A) (k : A -> B) (w : world) :
  P (snd (h w)) -> P (snd (bind h (fun x => ret (k x)) w)).
Proof. unfold bind, ret. destruct (h w) as [[a|e] w2]; auto. Qed.

Lemma mark_order_paid_keys (order_id : string) (w : world) :
  map (fun d => Bson.str (o_id d)) (db_order (snd (mark_order_paid order_id w)))
  = map (fun d => Bson.str (o_id d)) (db_order w).
Proof.
  destruct (Bson.is_valid order_id) eqn:Hv.
  - rewrite (mark_order_paid_run _ _ Hv).
    pose proof (update_first_keys (fun d => Bson.str (o_id d))
                  (fun d => String.eqb (Bson.str (o_id d)) (Bson.lower order_id))
                  (set_paid (clock w (clock_reads w))) (db_order w)
                  (fun d => eq_refl)) as Hkeys.
    destruct (update_first _ _ (db_order w)) as [c n]. exact Hkeys.
  - rewrite (mark_order_paid_malformed _ _ Hv). reflexivity.
Qed.

Lemma update_product_keys (pid : string) (payload : ProductIn) (w : world) :
  map (fun d => Bson.str (p_id d)) (db_product (snd (update_product pid payload w)))
  = map (fun d => Bson.str (p_id d)) (db_product w).
Proof.
  destruct (Bson.is_valid pid) eqn:Hv.
  - rewrite (update_product_run _ _ _ Hv).
    pose proof (update_first_keys (fun d => Bson.str (p_id d))
                  (fun d => String.eqb (Bson.str (p_id d)) (Bson.lower pid))
                  (set_product_fields payload (clock w (clock_reads w))) (db_product w)
                  (fun d => eq_refl)) as Hkeys.
    destruct (update_first _ _ (db_product w)) as [c n]. simpl in Hkeys.
    destruct (n =? 0); exact Hkeys.
  - rewrite (update_product_malformed _ _ _ Hv). reflexivity.
Qed.

Lemma delete_product_keys (pid : string) (w : world) :
  unique_product_ids w -> unique_product_ids (snd (delete_product pid w)).
Proof.
  intros Hnd. destruct (Bson.is_valid pid) eqn:Hv.
  - rewrite (delete_product_run _ _ Hv).
    pose proof (delete_first_keys (fun d => Bson.str (p_id d))
                  (fun d => String.eqb (Bson.str (p_id d)) (Bson.lower pid))
                  (db_product w) Hnd) as Hkeys.
    destruct (delete_first _ (db_product w)) as [c n]. exact Hkeys.
  - rewrite (delete_product_malformed _ _ Hv). exact Hnd.
Qed.

Lemma mark_order_paid_products (order_id : string) (w : world) :
  db_product (snd (mark_order_paid order_id w)) = db_product w.
Proof.
  destruct (Bson.is_valid order_id) eqn:Hv.
  - rewrite (mark_order_paid_run _ _ Hv).
    destruct (update_first _ _ (db_order w)) as [c n]. reflexivity.
  - rewrite (mark_order_paid_malformed _ _ Hv). reflexivity.
Qed.

Lemma get_order_products (order_id : string) (w : world) :
  db_product (snd (get_order order_id w)) = db_product w.
Proof.
  destruct (Bson.is_valid order_id) eqn:Hv.
  - rewrite (get_order_run _ _ Hv). reflexivity.
  - rewrite (get_order_malformed _ _ Hv). reflexivity.
Qed.

Lemma create_order_unique (order : OrderIn) (w : world) :
  unique_ids w -> unique_ids (snd (create_order order w)).
Proof.
  intros [Hp Ho]. unfold unique_ids, unique_product_ids, unique_order_ids in *.
  destruct (create_order_outcomes order w)
    as [(e & w' & Hrun & Ho' & Hp') | (enriched & total & Hrun)]; rewrite Hrun; simpl.
  - rewrite Ho', Hp'. split; assumption.
  - split; [exact Hp|].
    apply (snoc_keys (fun d => Bson.str (o_id d))); [|exact Ho].
    assert (Hfresh : fresh_order_id w).
    { destruct (fresh_order_id_dec w) as [H|H]; [exact H|].
      exfalso. pose proof (create_order_return _ _ _ _ Hrun) as (? & ? & Hf & _).
      contradiction. }
    exact Hfresh.
Qed.

Lemma handle_unique (r : request) (w : world) :
  unique_ids w -> unique_ids (snd (handle r w)).
Proof.
  intros Hw. destruct r; simpl.
  - apply (guarded_pred unique_ids); [exact Hw|]. intros [Hp Ho].
    unfold unique_ids, unique_product_ids, unique_order_ids in *.
    rewrite create_product_orders. split; [|exact Ho].
    destruct (create_product_products payload w) as [-> | (Hfresh & doc & Hid & ->)];
      [exact Hp|].
    apply (snoc_keys (fun d => Bson.str (p_id d))); [|exact Hp]. rewrite Hid. exact Hfresh.
  - apply (guarded_pred unique_ids); [exact Hw|]. intros [Hp Ho].
    unfold unique_ids, unique_product_ids, unique_order_ids in *.
    rewrite update_product_keys, update_product_orders. split; assumption.
  - apply (guarded_pred unique_ids); [exact Hw|]. intros [Hp Ho].
    unfold unique_ids, unique_order_ids in *.
    rewrite delete_product_orders. split; [apply delete_product_keys, Hp | exact Ho].
  - apply (unguarded_pred unique_ids). apply create_order_unique, Hw.
  - apply (unguarded_pred unique_ids).
    unfold unique_ids, unique_product_ids, unique_order_ids in *.
    rewrite get_order_orders, get_order_products. exact Hw.
  - apply (guarded_pred unique_ids); [exact Hw|]. intros [Hp Ho].
    unfold unique_ids, unique_product_ids, unique_order_ids in *.
    rewrite mark_order_paid_keys, mark_order_paid_products. split; assumption.
Qed.

(** X11. Ids stay unique: if no two products and no two orders share an
    id, this is still so after any sequence of requests.  An insert uses
    a generated id that the collection does not hold, an update never
    sets [_id], and a delete only removes. *)
Theorem serve_keeps_ids_unique (rs : list request) (w : world) :
  unique_product_ids w ->
  unique_order_ids w ->
  unique_product_ids (serve rs w) /\ unique_order_ids (serve rs w).
Proof.
  intros Hp Ho. assert (Hw : unique_ids w) by (split; assumption).
  clear Hp Ho. revert w Hw. induction rs as [|r rs IH]; intros w Hw; [exact Hw|].
  simpl. apply IH, handle_unique, Hw.
Qed.

(** ** Without the admin token *)

Lemma require_admin_refuses (tok : string) (w : world) :
  tok <> ADMIN_TOKEN w ->
  require_admin tok w = (Raise (HTTPException 401 "Invalid or missing admin token"), w).
Proof.
  intros Hne. unfold require_admin, bind, get_world, raise, ret.
  apply String.eqb_neq in Hne. rewrite Hne. reflexivity.
Qed.

Lemma only_orders_added_refl (w : world) : only_orders_added w w.
Proof. split; [reflexivity|]. split; [reflexivity|]. exists []. rewrite app_nil_r. reflexivity. Qed.

Lemma only_orders_added_trans (w1 w2 w3 : world) :
  only_orders_added w1 w2 -> only_orders_added w2 w3 -> only_orders_added w1 w3.
Proof.
  intros (Ht & Hp & a & Ho) (Ht' & Hp' & a' & Ho').
  split; [congruence|]. split; [congruence|].
  exists (a ++ a'). rewrite Ho', Ho, app_assoc. reflexivity.
Qed.

Lemma create_order_only_adds (order : OrderIn) (w : world) :
  only_orders_added w (snd (create_order order w)).
Proof.
  destruct (items order) as [|i0 cart0] eqn:Hitems.
  { unfold create_order. rewrite Hitems. apply only_orders_added_refl. }
  assert (Hne : items order <> []) by (rewrite Hitems; discriminate).
  clear Hitems.
  destruct (validate_all_cases (items order) w) as [(ids & Hv & _ & _) | [Hv _]].
  2: { rewrite (create_order_malformed _ _ _ Hv Hne). apply only_orders_added_refl. }
  destruct (price_lines_cases (by_str_id (resolved w ids)) (items order) [] PyFloat.zero)
    as [(ds & _ & Hp) | (pre & i & post & _ & _ & _ & Hp)].
  2: { rewrite (create_order_invalid _ _ _ _ Hv Hne Hp).
       split; [reflexivity|]. split; [reflexivity|].
       exists []. rewrite app_nil_r. reflexivity. }
  destruct (fresh_order_id_dec w) as [Hfresh | Hdup].
  2: { rewrite (create_order_duplicate _ _ _ _ _ Hv Hne Hp Hdup).
       split; [reflexivity|]. split; [reflexivity|].
       exists []. rewrite app_nil_r. reflexivity. }
  rewrite (create_order_priced _ _ _ _ _ Hv Hne Hp Hfresh).
  split; [reflexivity|]. split; [reflexivity|]. eexists. reflexivity.
Qed.

Lemma get_order_only_reads (order_id : string) (w : world) :
  only_orders_added w (snd (get_order order_id w)).
Proof.
  destruct (Bson.is_valid order_id) eqn:Hv.
  - rewrite (get_order_run _ _ Hv).
    split; [reflexivity|]. split; [reflexivity|]. exists []. rewrite app_nil_r. reflexivity.
  - rewrite (get_order_malformed _ _ Hv). apply only_orders_added_refl.
Qed.

Lemma handle_without_admin_token (r : request) (w : world) :
  without_admin_token w r -> only_orders_added w (snd (handle r w)).
Proof.
  intros Hr. destruct r; simpl;
    try (rewrite (bind_raise _ _ _ _ _ (require_admin_refuses _ w (Hr _ eq_refl)));
         apply only_orders_added_refl).
  - apply (unguarded_pred (only_orders_added w)), create_order_only_adds.
  - apply (unguarded_pred (only_orders_added w)), get_order_only_reads.
Qed.

(** X12. Without the admin token nothing can be changed but by adding
    orders: after any sequence of requests none of which carries the
    configured token on a privileged route, the catalog is as it was and
    the orders stored before are all there, unchanged and in place
    (none was marked paid); only new orders may follow them. *)
Theorem serve_without_admin_token (rs : list request) (w : world) :
  Forall (without_admin_token w) rs ->
  db_product (serve rs w) = db_product w
  /\ exists added, db_order (serve rs w) = db_order w ++ added.
Proof.
  intros Hrs.
  assert (H : only_orders_added w (serve rs w)); [|destruct H as (_ & Hp & Ho); auto].
  revert w Hrs. induction rs as [|r rs IH]; intros w Hrs.
  - apply only_orders_added_refl.
  - apply Forall_cons in Hrs as [Hr Hrs]. simpl.
    pose proof (handle_without_admin_token r w Hr) as Hstep.
    eapply only_orders_added_trans; [exact Hstep|]. apply IH.
    destruct Hstep as (Htok & _). unfold without_admin_token in *.
    rewrite Htok. exact Hrs.
Qed.

(** ** The total is not negative *)

Lemma ge0_nonneg (x : float) : ge0 x = true <-> nonneg_float x.
Proof.
  destruct x as [[]|[]| |[] m e]; simpl; unfold ge0; simpl; split; intros H;
    try exact I; try reflexivity; try discriminate; try contradiction.
Qed.

Lemma shr_1_nonneg (mrs : shr_record) : 0 <= shr_m mrs -> 0 <= shr_m (shr_1 mrs).
Proof.
  destruct mrs as [m r s']. simpl.
  destruct m as [|[p|p|]|[p|p|]]; simpl; lia.
Qed.

Lemma iter_shr_1_nonneg (p : positive) (mrs : shr_record) :
  0 <= shr_m mrs -> 0 <= shr_m (SpecFloat.iter_pos shr_1 p mrs).
Proof.
  revert mrs. induction p as [p IH|p IH|]; intros mrs H; simpl.
  - apply IH, IH, shr_1_nonneg, H.
  - apply IH, IH, H.
  - apply shr_1_nonneg, H.
Qed.

Lemma shr_fexp_nonneg (m e : Z) (l : location) :
  0 <= m -> 0 <= shr_m (fst (shr_fexp PyFloat.prec PyFloat.emax m e l)).
Proof.
  intros Hm. unfold shr_fexp, shr.
  assert (Hrec : 0 <= shr_m (shr_record_of_loc m l)) by (destruct l as [|[]]; exact Hm).
  destruct (fexp _ _ _ - e); simpl; [exact Hrec | apply iter_shr_1_nonneg, Hrec | exact Hrec].
Qed.

Lemma round_nearest_even_nonneg (m : Z) (l : location) :
  0 <= m -> 0 <= round_nearest_even m l.
Proof.
  intros Hm. destruct l as [|[]]; simpl; try lia. destruct (Z.even m); lia.
Qed.

(** Rounding a mantissa that is not negative, with the positive sign,
    gives a float that is not negative and not NaN. *)
Lemma binary_round_aux_nonneg (m e : Z) (l : location) :
  0 <= m -> nonneg_float (binary_round_aux PyFloat.prec PyFloat.emax false m e l).
Proof.
  intros Hm. unfold binary_round_aux.
  pose proof (shr_fexp_nonneg m e l Hm) as H1.
  destruct (shr_fexp _ _ m e l) as [mrs' e']. simpl in H1.
  pose proof (shr_fexp_nonneg _ e' loc_Exact
                (round_nearest_even_nonneg _ (loc_of_shr_record mrs') H1)) as H2.
  destruct (shr_fexp _ _ _ e' loc_Exact) as [mrs'' e'']. simpl in H2.
  destruct (shr_m mrs''); [exact I | | lia].
  destruct (e'' <=? _); exact I.
Qed.

Lemma add_nonneg (x y : float) :
  nonneg_float x -> nonneg_float y -> nonneg_float (PyFloat.add x y).
Proof.
  destruct x as [[]|[]| |[] mx ex]; destruct y as [[]|[]| |[] my ey];
    simpl; try tauto; intros _ _.
  unfold binary_normalize, binary_round.
  destruct (shl_align _ _ _) as [mz ez] eqn:Hal.
  apply binary_round_aux_nonneg. lia.
Qed.

Lemma of_int_quantity (q : Z) :
  1 <= q <= 10 -> exists m e, PyFloat.of_int q = S754_finite false m e.
Proof.
  intros Hq.
  assert (q = 1 \/ q = 2 \/ q = 3 \/ q = 4 \/ q = 5 \/ q = 6 \/ q = 7 \/ q = 8
          \/ q = 9 \/ q = 10) as Hcases by lia.
  repeat (destruct Hcases as [-> | Hcases]; [vm_compute; eauto|]).
  subst q. vm_compute. eauto.
Qed.

Lemma mul_quantity_nonneg (x : float) (q : Z) :
  nonneg_float x -> 1 <= q <= 10 -> nonneg_float (PyFloat.mul x (PyFloat.of_int q)).
Proof.
  intros Hx Hq. destruct (of_int_quantity q Hq) as (m & e & ->).
  destruct x as [[]|[]| |[] mx ex]; simpl in *; try tauto.
  apply binary_round_aux_nonneg. lia.
Qed.

Lemma div_eucl_nonneg (a b q r : Z) :
  0 <= a -> 0 < b -> Z.div_eucl a b = (q, r) -> 0 <= q.
Proof.
  intros Ha Hb H. assert (q = a / b) as -> by (unfold Z.div; rewrite H; reflexivity).
  apply Z.div_pos; lia.
Qed.

Lemma round2_nonneg (x : float) : nonneg_float x -> nonneg_float (PyFloat.round2 x).
Proof.
  destruct x as [[]|[]| |[] m e]; simpl; try tauto. intros _.
  destruct (PyFloat.hundredths m e) as [|n|n]; try exact I.
  unfold PyFloat.div, SFdiv, SFdiv_core_binary.
  match goal with
  | |- context [Z.div_eucl ?a ?b] =>
      pose proof (div_eucl_nonneg a b) as Hq; destruct (Z.div_eucl a b) as [q r]
  end.
  apply binary_round_aux_nonneg. eapply Hq; [|lia|reflexivity].
  destruct (_ - _ - _); [lia | apply Z.shiftl_nonneg; lia | lia].
Qed.

Lemma foldl_add_nonneg (l : list float) (t : float) :
  nonneg_float t -> Forall nonneg_float l -> nonneg_float (foldl PyFloat.add t l).
Proof.
  revert t. induction l as [|a l IH]; intros t Ht Hl; simpl; [exact Ht|].
  apply Forall_cons in Hl as [Ha Hl]. apply IH; [apply add_nonneg; assumption | exact Hl].
Qed.

Lemma line_amount_nonneg (w : world) (item : CartItem) :
  Forall (fun d => ge0 (snapshot_price d) = true) (db_product w) ->
  valid_quantity item ->
  nonneg_float (line_amount w item).
Proof.
  intros Hprices Hq. unfold line_amount.
  destruct (find_product w (product_id item)) as [d|] eqn:Hd; [|exact I].
  apply find_some_in in Hd as [Hin _].
  rewrite Forall_forall in Hprices.
  apply mul_quantity_nonneg; [|exact Hq].
  apply ge0_nonneg, Hprices, list_elem_of_In, Hin.
Qed.

(** X13. When every product of the catalog has a price that is not
    negative (as [ProductIn] requires, [price >= 0]) and every cart line
    a quantity within 1 to 10 (as [CartItem] requires), the order that
    [create_order] returns has a [total_amount] that satisfies
    [total_amount >= 0], as the [Order] schema asks, and so has the price
    of each of its line items; in particular none of them is NaN. *)
Theorem create_order_total_not_negative (order : OrderIn) (w w' : world)
    (out : OrderOut) :
  unique_product_ids w ->
  Forall (fun d => ge0 (snapshot_price d) = true) (db_product w) ->
  Forall valid_quantity (items order) ->
  create_order order w = (Return out, w') ->
  ge0 (out_total_amount out) = true
  /\ Forall (fun li => ge0 (li_price li) = true) (out_items out).
Proof.
  intros Hnd Hprices Hq Hrun.
  destruct (create_order_inv order w w' out Hnd Hrun) as (ds & Hds & _ & _ & -> & _).
  simpl. split.
  - apply ge0_nonneg, round2_nonneg. unfold PyFloat.sum.
    apply foldl_add_nonneg; [exact I|].
    apply Forall_fmap. eapply Forall_impl; [exact Hq|].
    intros i Hi. simpl. apply line_amount_nonneg; assumption.
  - clear Hrun Hq. generalize dependent (items order). intros cart Hds.
    induction Hds as [|i d cart ds Hi _ IH]; simpl; constructor; [|exact IH].
    simpl. apply find_some_in in Hi as [Hin _].
    rewrite Forall_forall in Hprices. apply Hprices, list_elem_of_In, Hin.
Qed.

(** ** Routes in sequence *)

(** X14. An order that was placed and then marked paid reads back as
    paid: [mark_order_paid] on the returned id succeeds and [get_order]
    then answers with the items, total, payment method, customer and
    [created_at] of the order as placed, the status ["paid"], and
    [updated_at] at the reading of the clock taken when it was marked. *)
Theorem paid_order_reads_back (order : OrderIn) (w w1 : world) (out : OrderOut) :
  create_order order w = (Return out, w1) ->
  exists w2 w3,
    mark_order_paid (out_id out) w1 = (Return {| ok := true |}, w2)
    /\ get_order (out_id out) w2
       = (Return {| oj_id := out_id out;
                    oj_items := out_items out;
                    oj_total_amount := out_total_amount out;
                    oj_status := "paid";
                    oj_payment_method := out_payment_method out;
                    oj_customer := out_customer out;
                    oj_created_at := Iso (out_created_at out);
                    oj_updated_at := Iso (clock w (S (S (clock_reads w)))) |}, w3).
Proof.
  intros Hrun.
  destruct (create_order_return _ _ _ _ Hrun) as (enriched & total & Hfresh & -> & ->).
  set (doc := new_order order enriched total w).
  assert (Hstored : stored_order (after_order doc w) (Bson.lower (out_id (order_out doc)))
                    = Some doc).
  { cbn [out_id order_out]. rewrite str_lower.
    unfold stored_order, after_order. cbn [db_order add_log set_order next_oid tick].
    exact (find_inserted w doc Hfresh). }
  destruct (mark_order_paid_found (out_id (order_out doc)) (after_order doc w) doc
              (BsonFacts.str_valid _) Hstored) as (w2 & Hmark & Hpaid & _).
  exists w2. eexists. split; [exact Hmark|].
  rewrite get_order_run by apply BsonFacts.str_valid.
  rewrite Hpaid. reflexivity.
Qed.

(** X15. A product that was deleted can no longer be ordered: in a
    catalog without duplicate ids, once [delete_product] has removed a
    product, [create_order] rejects every cart with a line that names it,
    and stores no order. *)
Theorem deleted_product_cannot_be_ordered (pid : string) (w : world)
    (d : Product_doc) (order : OrderIn) (item : CartItem) :
  unique_product_ids w ->
  Bson.is_valid pid = true ->
  find_product w (Bson.lower pid) = Some d ->
  In item (items order) ->
  product_id item = Bson.lower pid ->
  exists w1 e w2,
    delete_product pid w = (Return true, w1)
    /\ create_order order w1 = (Raise e, w2)
    /\ db_order w2 = db_order w.
Proof.
  intros Hnd Hv Hd Hin Hpid.
  destruct (delete_product_removes pid w d Hnd Hv Hd)
    as (w1 & Hdel & Hgone & _ & _ & Horders).
  assert (Hnd1 : unique_product_ids w1).
  { pose proof (delete_product_keys pid w Hnd) as H. rewrite Hdel in H. exact H. }
  exists w1.
  destruct (create_order_outcomes order w1)
    as [(e & w2 & Hrun & Ho & _) | (enriched & total & Hrun)].
  - exists e, w2. split; [exact Hdel|]. split; [exact Hrun | congruence].
  - exfalso.
    destruct (create_order_inv order w1 _ _ Hnd1 Hrun) as (ds & Hds & _).
    apply list_elem_of_In in Hin.
    destruct (proj1 (list_elem_of_lookup _ _) Hin) as [n Hn].
    destruct (Forall2_lookup_l _ _ _ _ _ Hds Hn) as (d' & _ & Hfound).
    rewrite Hpid in Hfound. congruence.
Qed.

(** X16. The price is read when the order is placed: once
    [update_product] has set a product's price, every order placed next
    carries that price on each line that names the product. *)
Theorem new_price_applies_to_next_order (pid : string) (payload : ProductIn)
    (w : world) (d : Product_doc) :
  unique_product_ids w ->
  Bson.is_valid pid = true ->
  find_product w (Bson.lower pid) = Some d ->
  exists body w1,
    update_product pid payload w = (Return body, w1)
    /\ forall order out w2,
         create_order order w1 = (Return out, w2) ->
         Forall (fun li => li_product_id li = Bson.lower pid ->
                           li_price li = price payload) (out_items out).
Proof.
  intros Hnd Hv Hd.
  destruct (update_product_replaces pid payload w d Hv Hd)
    as (w1 & Hup & Hnew & _).
  assert (Hnd1 : unique_product_ids w1).
  { unfold unique_product_ids in *.
    pose proof (update_product_keys pid payload w) as Hk. rewrite Hup in Hk.
    simpl in Hk. rewrite Hk. exact Hnd. }
  eexists _, w1. split; [exact Hup|].
  intros order out w2 Hrun.
  destruct (create_order_inv order w1 _ _ Hnd1 Hrun) as (ds & Hds & _ & _ & -> & _).
  simpl. clear Hrun. generalize dependent (items order). intros cart Hds.
  induction Hds as [|i d' cart ds Hi _ IH]; simpl; constructor; [|exact IH].
  simpl. intros Hpid. rewrite Hpid, Hnew in Hi. injection Hi as <-. reflexivity.
Qed.

(** ** Ids in upper case *)

Lemma find_product_canonical (w : world) (pid : string) (d : Product_doc) :
  find_product w pid = Some d -> Bson.lower pid = pid.
Proof. intros H. rewrite (find_product_str w pid d H). apply str_lower. Qed.

(** When every id of the cart is well formed, a cart with a line that
    names no product is rejected with the 400 error for such a line,
    after the batch read. *)
Lemma create_order_rejects (order : OrderIn) (w : world) :
  unique_product_ids w ->
  Forall (fun i => Bson.is_valid (product_id i) = true) (items order) ->
  Exists (fun i => find_product w (product_id i) = None) (items order) ->
  exists i,
    In i (items order)
    /\ find_product w (product_id i) = None
    /\ create_order order w
       = (Raise (HTTPException 400 ("Invalid product " +:+ product_id i)),
          add_log (Find "product") w).
Proof.
  intros Hnd Hval Habsent.
  assert (Hne : items order <> []).
  { intros Hnil. rewrite Hnil in Habsent. inversion Habsent. }
  destruct (validate_all_cases (items order) w) as [(ids & Hv & Hids & _) | [_ Hbad]].
  2: { exfalso. apply Exists_exists in Hbad as (j & Hin & Hj).
       rewrite Forall_forall in Hval. rewrite (Hval j Hin) in Hj. discriminate. }
  pose proof (resolved_cart w _ _ Hnd Hids) as Hres.
  destruct (price_lines_cases (by_str_id (resolved w ids)) (items order) [] PyFloat.zero)
    as [(ds & Hds & _) | (pre & i & post & Hsplit & _ & Hi & Hp)].
  - exfalso. apply Exists_exists in Habsent as (i & Hin & Hnone).
    destruct (proj1 (list_elem_of_lookup _ _) Hin) as [n Hn].
    destruct (Forall2_lookup_l _ _ _ _ _ Hds Hn) as (d & _ & Hd).
    rewrite Forall_forall in Hres. rewrite (Hres i Hin) in Hd. congruence.
  - exists i.
    assert (Hin : i ∈ items order) by (rewrite Hsplit; set_solver).
    split; [apply list_elem_of_In, Hin|].
    rewrite Forall_forall in Hres.
    split; [rewrite <- (Hres i Hin); exact Hi|].
    exact (create_order_invalid _ _ _ _ Hv Hne Hp).
Qed.

(** X17. A cart line names a product by the printed form of its id only.
    When every id of the cart is a well-formed object id and one of them
    is spelled with an upper-case digit, [create_order] rejects the cart
    with the 400 "Invalid product" error for a line that names no product
    and stores nothing, even if that id, once validated, is the id of a
    product: the batch lookup files each product under [str(_id)], which
    is in lower case, and the loop looks the line up under the string as
    submitted. *)
Theorem create_order_upper_case_rejected (order : OrderIn) (w : world)
    (item : CartItem) :
  unique_product_ids w ->
  Forall (fun i => Bson.is_valid (product_id i) = true) (items order) ->
  In item (items order) ->
  Bson.lower (product_id item) <> product_id item ->
  exists i w',
    In i (items order)
    /\ find_product w (product_id i) = None
    /\ create_order order w
       = (Raise (HTTPException 400 ("Invalid product " +:+ product_id i)), w')
    /\ db_order w' = db_order w
    /\ db_product w' = db_product w.
Proof.
  intros Hnd Hval Hin Hupper.
  destruct (create_order_rejects order w Hnd Hval) as (i & Hi & Hnone & Hrun).
  - apply Exists_exists. exists item. split; [apply list_elem_of_In, Hin|].
    destruct (find_product w (product_id item)) as [d|] eqn:Hd; [|reflexivity].
    exfalso. apply Hupper. exact (find_product_canonical w _ d Hd).
  - exists i. eexists. split; [exact Hi|]. split; [exact Hnone|].
    split; [exact Hrun|]. split; reflexivity.
Qed.

(** ** The sample shop again *)

(** The ring of the sample shop is repriced. *)
Lemma update_product_found_witness :
  exists w',
    update_product (Bson.str Sample.ring_id) Sample.repriced_ring Sample.shop
    = (Return (Some (to_str_id_product
                       {| p_id := Sample.ring_id;
                          p_name := Some "ring";
                          p_description := None;
                          p_price := Some (NFloat (PyFloat.dec 2499 100));
                          p_category := Some "Rings";
                          p_image_url := None;
                          p_in_stock := Some true;
                          p_created_at := Some 100;
                          p_updated_at := Some 1700000000 |})), w')
    /\ db_order w' = db_order Sample.shop.
Proof.
  destruct (update_product_found (Bson.str Sample.ring_id) Sample.repriced_ring Sample.shop
              (Sample.product Sample.ring_id "ring" (Some (NFloat (PyFloat.dec 1999 100)))))
    as (w' & Hrun & _ & _ & _ & Horders).
  - reflexivity.
  - reflexivity.
  - exists w'. split; [exact Hrun | exact Horders].
Defined.

(** The ring of the sample shop is deleted. *)
Lemma delete_product_found_witness :
  exists w',
    delete_product (Bson.str Sample.ring_id) Sample.shop = (Return true, w')
    /\ find_product w' (Bson.str Sample.ring_id) = None
    /\ S (length (db_product w')) = length (db_product Sample.shop).
Proof.
  destruct (delete_product_found (Bson.str Sample.ring_id) Sample.shop
              (Sample.product Sample.ring_id "ring" (Some (NFloat (PyFloat.dec 1999 100)))))
    as (w' & Hrun & Hgone & _ & Hlen & _).
  - exact sample_shop_unique.
  - reflexivity.
  - reflexivity.
  - exists w'. split; [exact Hrun|]. split; [exact Hgone | exact Hlen].
Defined.

(** The sample order is read back. *)
Lemma get_order_after_create_witness :
  exists out w1 j w2,
    create_order Sample.example_cart Sample.shop = (Return out, w1)
    /\ get_order (out_id out) w1 = (Return j, w2)
    /\ oj_id j = Sample.order_id
    /\ oj_status j = "pending"
    /\ oj_total_amount j = PyFloat.dec 4498 100.
Proof.
  destruct (get_order_after_create _ _ _ _ sample_order_runs) as (w2 & Hget & _).
  eexists _, _, _, w2. split; [exact sample_order_runs|]. split; [exact Hget|].
  split; [reflexivity|]. split; [reflexivity|]. vm_compute. reflexivity.
Defined.

(** The store operations of the sample order. *)
Lemma create_order_store_traffic_witness :
  exists out w',
    create_order Sample.example_cart Sample.shop = (Return out, w')
    /\ db_log w' = [Find "product"; InsertOne "order"; FindOne "order"]
    /\ clock_reads w' = 2%nat.
Proof.
  destruct (create_order_store_traffic _ _ _ _ sample_order_runs) as (Hlog & Hclock & _).
  eexists _, _. split; [exact sample_order_runs|]. split; [exact Hlog | exact Hclock].
Defined.

(** A busy afternoon in the sample shop. *)
Lemma serve_keeps_ids_unique_witness :
  unique_product_ids
    (serve [POST_orders Sample.example_cart;
            POST_products "admin123" Sample.repriced_ring;
            DELETE_product "admin123" (Bson.str Sample.chain_id);
            POST_orders Sample.stud_first;
            POST_mark_paid "admin123" Sample.order_id] Sample.shop)
  /\ unique_order_ids
       (serve [POST_orders Sample.example_cart;
               POST_products "admin123" Sample.repriced_ring;
               DELETE_product "admin123" (Bson.str Sample.chain_id);
               POST_orders Sample.stud_first;
               POST_mark_paid "admin123" Sample.order_id] Sample.shop).
Proof.
  apply serve_keeps_ids_unique.
  - exact sample_shop_unique.
  - constructor.
Defined.

(** Requests with a guessed token, and an order, on the shop that holds
    one order. *)
Lemma serve_without_admin_token_witness :
  db_product
    (serve [PUT_product "letmein" (Bson.str Sample.ring_id) Sample.repriced_ring;
            POST_mark_paid "" Sample.order_id;
            POST_orders Sample.stud_first;
            DELETE_product "admin" (Bson.str Sample.ring_id)] Sample.open_shop)
  = db_product Sample.open_shop
  /\ exists added,
       db_order
         (serve [PUT_product "letmein" (Bson.str Sample.ring_id) Sample.repriced_ring;
                 POST_mark_paid "" Sample.order_id;
                 POST_orders Sample.stud_first;
                 DELETE_product "admin" (Bson.str Sample.ring_id)] Sample.open_shop)
       = db_order Sample.open_shop ++ added.
Proof.
  apply serve_without_admin_token.
  repeat constructor; intros tok [= <-]; discriminate.
Defined.

(** The total of the sample order is not negative. *)
Lemma create_order_total_not_negative_witness :
  exists out w',
    create_order Sample.example_cart Sample.shop = (Return out, w')
    /\ ge0 (out_total_amount out) = true.
Proof.
  eexists _, _. split; [exact sample_order_runs|].
  eapply (create_order_total_not_negative Sample.example_cart Sample.shop).
  - exact sample_shop_unique.
  - repeat constructor.
  - repeat constructor; unfold valid_quantity; simpl; lia.
  - exact sample_order_runs.
Defined.

(** The sample order is marked paid and read back. *)
Lemma paid_order_reads_back_witness :
  exists out w1 w2 j w3,
    create_order Sample.example_cart Sample.shop = (Return out, w1)
    /\ mark_order_paid (out_id out) w1 = (Return {| ok := true |}, w2)
    /\ get_order (out_id out) w2 = (Return j, w3)
    /\ oj_status j = "paid"
    /\ oj_updated_at j = Iso 1700000002.
Proof.
  destruct (paid_order_reads_back _ _ _ _ sample_order_runs) as (w2 & w3 & Hmark & Hget).
  eexists _, _, w2, _, w3. split; [exact sample_order_runs|]. split; [exact Hmark|].
  split; [exact Hget|]. split; reflexivity.
Defined.

(** The ring is deleted, and then ordered. *)
Lemma deleted_product_cannot_be_ordered_witness :
  exists w1 e w2,
    delete_product (Bson.str Sample.ring_id) Sample.shop = (Return true, w1)
    /\ create_order Sample.example_cart w1 = (Raise e, w2)
    /\ db_order w2 = db_order Sample.shop.
Proof.
  apply (deleted_product_cannot_be_ordered (Bson.str Sample.ring_id) Sample.shop
           (Sample.product Sample.ring_id "ring" (Some (NFloat (PyFloat.dec 1999 100))))
           Sample.example_cart (Sample.line Sample.ring_id 2)).
  - exact sample_shop_unique.
  - reflexivity.
  - reflexivity.
  - left. reflexivity.
  - reflexivity.
Defined.

(** The ring is repriced at 24.99, and then ordered. *)
Lemma new_price_applies_to_next_order_witness :
  exists body w1,
    update_product (Bson.str Sample.ring_id) Sample.repriced_ring Sample.shop
    = (Return body, w1)
    /\ forall order out w2,
         create_order order w1 = (Return out, w2) ->
         Forall (fun li => li_product_id li = Bson.lower (Bson.str Sample.ring_id) ->
                           li_price li = PyFloat.dec 2499 100) (out_items out).
Proof.
  apply (new_price_applies_to_next_order (Bson.str Sample.ring_id) Sample.repriced_ring
           Sample.shop
           (Sample.product Sample.ring_id "ring" (Some (NFloat (PyFloat.dec 1999 100))))).
  - exact sample_shop_unique.
  - reflexivity.
  - reflexivity.
Defined.

(** The ring, ordered under its id in upper case. *)
Lemma create_order_upper_case_rejected_witness :
  exists i w',
    In i (items (Sample.cart [{| product_id := "64B7F0C2A1D3E4F5A6B7C801"; quantity := 1 |}]))
    /\ find_product Sample.shop (product_id i) = None
    /\ create_order
         (Sample.cart [{| product_id := "64B7F0C2A1D3E4F5A6B7C801"; quantity := 1 |}])
         Sample.shop
       = (Raise (HTTPException 400 ("Invalid product " +:+ product_id i)), w')
    /\ db_order w' = db_order Sample.shop
    /\ db_product w' = db_product Sample.shop.
Proof.
  apply (create_order_upper_case_rejected _ _
           {| product_id := "64B7F0C2A1D3E4F5A6B7C801"; quantity := 1 |}).
  - exact sample_shop_unique.
  - repeat constructor.
  - left. reflexivity.
  - discriminate.
Defined.

(** ** Ids in either case on the other routes *)

Lemma lower_valid (v : string) :
  Bson.is_valid v = true ->
  Bson.is_valid (Bson.lower v) = true /\ Bson.lower (Bson.lower v) = Bson.lower v.
Proof.
  intros Hv. pose proof (BsonFacts.valid_lower_canonical v Hv) as Hcan.
  split; [apply BsonFacts.canonical_valid, Hcan | apply BsonFacts.canonical_lower, Hcan].
Qed.

(** X18. The routes that take an id in their path read it in either
    case: [get_order], [mark_order_paid], [update_product] and
    [delete_product] do on a well-formed id exactly what they do on its
    lower-case form (unlike [create_order], which takes the ids of its
    cart lines as they are spelled). *)
Theorem path_ids_ignore_case (v : string) (payload : ProductIn) (w : world) :
  Bson.is_valid v = true ->
  get_order v w = get_order (Bson.lower v) w
  /\ mark_order_paid v w = mark_order_paid (Bson.lower v) w
  /\ update_product v payload w = update_product (Bson.lower v) payload w
  /\ delete_product v w = delete_product (Bson.lower v) w.
Proof.
  intros Hv. destruct (lower_valid v Hv) as [Hv' Hidem].
  rewrite (get_order_run v w Hv), (get_order_run _ w Hv').
  rewrite (mark_order_paid_run v w Hv), (mark_order_paid_run _ w Hv').
  rewrite (update_product_run v payload w Hv), (update_product_run _ payload w Hv').
  rewrite (delete_product_run v w Hv), (delete_product_run _ w Hv').
  rewrite Hidem. repeat split.
Qed.

(** The sample order, read under its id in upper case. *)
Lemma path_ids_ignore_case_witness :
  get_order "64B7F0C2A1D3E4F5A6B7D000" Sample.open_shop
  = get_order Sample.order_id Sample.open_shop
  /\ mark_order_paid "64B7F0C2A1D3E4F5A6B7D000" Sample.open_shop
     = mark_order_paid Sample.order_id Sample.open_shop.
Proof.
  destruct (path_ids_ignore_case "64B7F0C2A1D3E4F5A6B7D000" Sample.repriced_ring
              Sample.open_shop eq_refl) as (Hget & Hmark & _).
  split; [exact Hget | exact Hmark].
Defined.
